(** * A shallow embedding of the compliance RAG function app (function_app.py)

    Python [str] values are modelled as Rocq [string]s whose characters are
    the code points U+0000..U+00FF (one [ascii] per code point); the string
    methods used by the app ([strip], [lower], [isalnum], [in], [len]) are
    written out with Python's tables for that range.  Relevance scores are
    IEEE-754 doubles, as Python's [float], using Rocq's primitive floats.
    Instants ([datetime]) are integers counting microseconds, durations
    ([timedelta]) likewise. *)

From Stdlib Require Import ZArith List String Ascii Bool Lia.
From Stdlib Require Import Floats.
From stdpp Require Import base gmap strings pretty.

Import ListNotations.
Set Warnings "-inexact-float".


(* ================================================================== *)
(** ** Python values and exceptions *)

(** The value found under ["question"] in the request body. *)
Inductive pyval :=
  | PyStr (s : string)
  | PyNone
  | PyOther (truthy : bool).   (* a number, list, dict or bool *)

Inductive exn :=
  | ValueError
  | AttributeError
  | ServiceError (what : string).   (* any exception raised by an Azure client *)

Inductive result (A : Type) :=
  | Ok (a : A)
  | Err (e : exn).
Arguments Ok {A} a.
Arguments Err {A} e.

(* ================================================================== *)
(** ** Python string methods on code points U+0000..U+00FF *)

Module PyStr.
Local Open Scope nat_scope.

(** [str.isspace] *)
Definition is_space (c : ascii) : bool :=
  let n := nat_of_ascii c in
  ((9 <=? n) && (n <=? 13)) || ((28 <=? n) && (n <=? 32))
  || (n =? 133) || (n =? 160).

(** [str.isalnum] *)
Definition is_alnum (c : ascii) : bool :=
  let n := nat_of_ascii c in
  ((48 <=? n) && (n <=? 57)) || ((65 <=? n) && (n <=? 90))
  || ((97 <=? n) && (n <=? 122))
  || existsb (Nat.eqb n) [170; 178; 179; 181; 185; 186; 188; 189; 190]
  || ((192 <=? n) && negb (n =? 215) && negb (n =? 247)).

(** [str.lower] on one code point *)
Definition lower_char (c : ascii) : ascii :=
  let n := nat_of_ascii c in
  if ((65 <=? n) && (n <=? 90)) || ((192 <=? n) && (n <=? 222) && negb (n =? 215))
  then ascii_of_nat (n + 32) else c.

Fixpoint lower (s : string) : string :=
  match s with
  | EmptyString => EmptyString
  | String c r => String (lower_char c) (lower r)
  end.

Fixpoint lstrip (s : string) : string :=
  match s with
  | EmptyString => EmptyString
  | String c r => if is_space c then lstrip r else s
  end.

Fixpoint rstrip (s : string) : string :=
  match s with
  | EmptyString => EmptyString
  | String c r =>
      match rstrip r with
      | EmptyString => if is_space c then EmptyString else String c EmptyString
      | r' => String c r'
      end
  end.

(** [str.strip()] with no argument *)
Definition strip (s : string) : string := rstrip (lstrip s).

(** [sub in s] *)
Fixpoint contains (sub s : string) : bool :=
  String.prefix sub s || match s with
                  | EmptyString => false
                  | String _ r => contains sub r
                  end.

(** [sum(c.isalnum() for c in s)] *)
Fixpoint alnum_count (s : string) : nat :=
  match s with
  | EmptyString => 0
  | String c r => (if is_alnum c then 1 else 0) + alnum_count r
  end.

End PyStr.

(* ================================================================== *)
(** ** InputValidator.validate_question *)

Definition msg_empty := "Pergunta não pode ser vazia".
Definition msg_not_text := "Pergunta deve ser texto".
Definition msg_too_short := "Pergunta muito curta (mínimo 5 caracteres)".
Definition msg_too_long := "Pergunta muito longa (máximo 1000 caracteres)".
Definition msg_few_alnum := "Pergunta deve conter pelo menos 3 caracteres alfanuméricos".
Definition msg_suspicious := "Pergunta contém conteúdo suspeito".

Definition suspicious_patterns : list string :=
  ["<script"; "javascript:"; "onerror="; "<?php"; "eval("].

(** [not question]: Python truthiness of the received value *)
Definition py_falsy (v : pyval) : bool :=
  match v with
  | PyStr s => String.eqb s ""
  | PyNone => true
  | PyOther t => negb t
  end.

(** Returns [(is_valid, sanitized_question, error_message)]. *)
Definition validate_question (question : pyval) : bool * string * string :=
  if py_falsy question then (false, "", msg_empty) else
  match question with
  | PyStr q =>
      let sanitized := PyStr.strip q in
      if (String.length sanitized <? 5)%nat then (false, "", msg_too_short)
      else if (1000 <? String.length sanitized)%nat then (false, "", msg_too_long)
      else if (PyStr.alnum_count sanitized <? 3)%nat then (false, "", msg_few_alnum)
      else if existsb (fun pattern => PyStr.contains pattern (PyStr.lower sanitized))
                      suspicious_patterns
           then (false, "", msg_suspicious)
      else (true, sanitized, "")
  | _ => (false, "", msg_not_text)
  end.

(* ================================================================== *)
(** ** SimpleRateLimiter *)

Module RateLimiter.
Local Open Scope Z_scope.

(** The limiter object: [max_requests], [window] (a [timedelta], in
    microseconds) and the [defaultdict(list)] of request instants per
    client. *)
Record t := mk {
  max_requests : Z;
  window : Z;
  requests : gmap string (list Z)
}.

Definition us_per_second : Z := 1000000.

(** [SimpleRateLimiter(max_requests, window_minutes)] *)
Definition init (max_requests window_minutes : Z) : t :=
  mk max_requests (window_minutes * 60 * us_per_second) ∅.

(** The global instance [rate_limiter]. *)
Definition rate_limiter : t := init 10 1.

(** [self.requests[client_id]] on a [defaultdict(list)] *)
Definition stamps (rl : t) (client_id : string) : list Z :=
  default [] (requests rl !! client_id).

Definition set_stamps (rl : t) (client_id : string) (l : list Z) : t :=
  mk (max_requests rl) (window rl) (<[client_id := l]> (requests rl)).

(** The message of [is_allowed]: ["OK"], or the rate-limit message
    carrying [int(retry_after)] seconds. *)
Inductive rate_msg :=
  | RateOK
  | RateExceeded (retry_secs : Z).

(** Python's [min] on a list: [ValueError] on an empty one. *)
Definition py_min (l : list Z) : result Z :=
  match l with
  | [] => Err ValueError
  | x :: r => Ok (fold_left Z.min r x)
  end.

(** [int((oldest_request + self.window - now).total_seconds())]: the
    duration is converted to seconds and truncated towards zero. *)
Definition retry_after_secs (rl : t) (oldest now : Z) : Z :=
  Z.quot (oldest + window rl - now) us_per_second.

(** [is_allowed(client_id)] at instant [now].  The list assignment to
    [self.requests[client_id]] happens before [min] may raise, so the
    new state is returned on both outcomes. *)
Definition is_allowed (rl : t) (client_id : string) (now : Z)
    : t * result (bool * rate_msg) :=
  let kept := List.filter (fun req_time => now - req_time <? window rl)
                          (stamps rl client_id) in
  let rl1 := set_stamps rl client_id kept in
  if max_requests rl <=? Z.of_nat (length kept) then
    match py_min kept with
    | Ok oldest_request =>
        (rl1, Ok (false, RateExceeded (retry_after_secs rl oldest_request now)))
    | Err e => (rl1, Err e)
    end
  else (set_stamps rl client_id (kept ++ [now]), Ok (true, RateOK)).

(** Successive checks by one client at the instants [ts]. *)
Fixpoint run_checks (rl : t) (client_id : string) (ts : list Z)
    : t * list (result (bool * rate_msg)) :=
  match ts with
  | [] => (rl, [])
  | now :: ts' =>
      let '(rl1, r) := is_allowed rl client_id now in
      let '(rl2, rs) := run_checks rl1 client_id ts' in
      (rl2, r :: rs)
  end.

End RateLimiter.

(* ================================================================== *)
(** ** hashlib.sha256 (FIPS 180-4), bytes as integers 0..255 *)

Module Sha256.
Local Open Scope Z_scope.

Definition mask32 : Z := 4294967295.
Definition add32 (a b : Z) : Z := Z.land (a + b) mask32.
Definition rotr (x n : Z) : Z :=
  Z.lor (Z.shiftr x n) (Z.land (Z.shiftl x (32 - n)) mask32).
Definition ch (x y z : Z) : Z := Z.lxor (Z.land x y) (Z.land (Z.lxor x mask32) z).
Definition maj (x y z : Z) : Z :=
  Z.lxor (Z.lxor (Z.land x y) (Z.land x z)) (Z.land y z).
Definition bsig0 (x : Z) : Z := Z.lxor (Z.lxor (rotr x 2) (rotr x 13)) (rotr x 22).
Definition bsig1 (x : Z) : Z := Z.lxor (Z.lxor (rotr x 6) (rotr x 11)) (rotr x 25).
Definition ssig0 (x : Z) : Z := Z.lxor (Z.lxor (rotr x 7) (rotr x 18)) (Z.shiftr x 3).
Definition ssig1 (x : Z) : Z := Z.lxor (Z.lxor (rotr x 17) (rotr x 19)) (Z.shiftr x 10).

(** The round constants, in decimal. *)
Definition K : list Z :=
  [1116352408; 1899447441; 3049323471; 3921009573; 961987163; 1508970993;
   2453635748; 2870763221; 3624381080; 310598401; 607225278; 1426881987;
   1925078388; 2162078206; 2614888103; 3248222580; 3835390401; 4022224774;
   264347078; 604807628; 770255983; 1249150122; 1555081692; 1996064986;
   2554220882; 2821834349; 2952996808; 3210313671; 3336571891; 3584528711;
   113926993; 338241895; 666307205; 773529912; 1294757372; 1396182291;
   1695183700; 1986661051; 2177026350; 2456956037; 2730485921; 2820302411;
   3259730800; 3345764771; 3516065817; 3600352804; 4094571909; 275423344;
   430227734; 506948616; 659060556; 883997877; 958139571; 1322822218;
   1537002063; 1747873779; 1955562222; 2024104815; 2227730452; 2361852424;
   2428436474; 2756734187; 3204031479; 3329325298].

(** The eight working variables / hash words. *)
Record state := St { a : Z; b : Z; c : Z; d : Z; e : Z; f : Z; g : Z; h : Z }.

Definition H0 : state :=
  St 1779033703 3144134277 1013904242 2773480762
     1359893119 2600822924 528734635 1541459225.

(** Padding: [0x80], zeros, and the bit length as a 64-bit big-endian. *)
Definition be_bytes (n : nat) (x : Z) : list Z :=
  map (fun i => Z.land (Z.shiftr x (8 * Z.of_nat (n - 1 - i))) 255) (seq 0 n).

Definition pad (msg : list Z) : list Z :=
  let len := length msg in
  msg ++ [128] ++ repeat 0 ((119 - len mod 64) mod 64)%nat
      ++ be_bytes 8 (8 * Z.of_nat len).

Fixpoint blocks (fuel : nat) (l : list Z) : list (list Z) :=
  match fuel with
  | O => []
  | S fuel' =>
      match l with
      | [] => []
      | _ => firstn 64 l :: blocks fuel' (skipn 64 l)
      end
  end.

Definition word_at (blk : list Z) (i : nat) : Z :=
  fold_left (fun acc j => acc * 256 + nth (4 * i + j) blk 0) (seq 0 4) 0.

(** Message schedule: [w] holds W_0 .. W_{t-1}; add [n] more words. *)
Fixpoint extend (n : nat) (w : list Z) : list Z :=
  match n with
  | O => w
  | S n' =>
      let t := length w in
      let wt := add32 (add32 (ssig1 (nth (t - 2) w 0)) (nth (t - 7) w 0))
                      (add32 (ssig0 (nth (t - 15) w 0)) (nth (t - 16) w 0)) in
      extend n' (w ++ [wt])
  end.

Definition schedule (blk : list Z) : list Z :=
  extend 48 (map (word_at blk) (seq 0 16)).

Definition round (s : state) (kw : Z * Z) : state :=
  let '(k, w) := kw in
  let t1 := add32 (add32 (add32 (h s) (bsig1 (e s))) (add32 (ch (e s) (f s) (g s)) k)) w in
  let t2 := add32 (bsig0 (a s)) (maj (a s) (b s) (c s)) in
  St (add32 t1 t2) (a s) (b s) (c s) (add32 (d s) t1) (e s) (f s) (g s).

Definition compress (s : state) (blk : list Z) : state :=
  let s' := fold_left round (combine K (schedule blk)) s in
  St (add32 (a s) (a s')) (add32 (b s) (b s')) (add32 (c s) (c s'))
     (add32 (d s) (d s')) (add32 (e s) (e s')) (add32 (f s) (f s'))
     (add32 (g s) (g s')) (add32 (h s) (h s')).

(** [hashlib.sha256(msg).digest()] *)
Definition digest (msg : list Z) : list Z :=
  let p := pad msg in
  let s := fold_left compress (blocks (length p) p) H0 in
  be_bytes 4 (a s) ++ be_bytes 4 (b s) ++ be_bytes 4 (c s) ++ be_bytes 4 (d s)
  ++ be_bytes 4 (e s) ++ be_bytes 4 (f s) ++ be_bytes 4 (g s) ++ be_bytes 4 (h s).

Definition hex_char (n : Z) : ascii :=
  nth (Z.to_nat n) (list_ascii_of_string "0123456789abcdef") "0"%char.

(** [.hexdigest()] *)
Fixpoint hex (bs : list Z) : string :=
  match bs with
  | [] => EmptyString
  | x :: r => String (hex_char (Z.shiftr x 4)) (String (hex_char (Z.land x 15)) (hex r))
  end.

Definition hexdigest (msg : list Z) : string := hex (digest msg).

End Sha256.

(** [str.encode()] (UTF-8) of code points U+0000..U+00FF *)
Fixpoint utf8_encode (s : string) : list Z :=
  match s with
  | EmptyString => []
  | String ch r =>
      let n := Z.of_nat (nat_of_ascii ch) in
      (if (n <? 128)%Z then [n]
       else [Z.lor 192 (Z.shiftr n 6); Z.lor 128 (Z.land n 63)]) ++ utf8_encode r
  end.

(** [hashlib.sha256(question.encode()).hexdigest()[:16]] *)
Definition question_hash (question : string) : string :=
  substring 0 16 (Sha256.hexdigest (utf8_encode question)).

(* ================================================================== *)
(** ** Collaborators, audit entries and the effect monad *)

(** A search hit as [result.get(...)] sees it; [None] is a missing key. *)
Record search_hit := {
  hit_score : option float;            (* '@search.score' *)
  hit_content : option string;         (* 'content' *)
  hit_source_file : option string;     (* 'source_file' *)
  hit_page_number : option Z;          (* 'page_number' *)
  hit_compliance_level : option string (* 'compliance_level' *)
}.

(** The dict appended to [relevant_docs]. *)
Record doc := {
  content : string;
  source : string;
  page : Z;
  compliance : string;
  relevance_score : float
}.

(** [audit_entry] of [_log_audit]. *)
Record audit_entry := {
  audit_timestamp : string;
  audit_client_ip : string;
  audit_question_hash : string;
  audit_sources : list string;
  audit_confidence : float
}.

(** Calls to the Azure clients, and the [AUDIT:] log lines, in order. *)
Inductive event :=
  | EvEmbed (text : string)                   (* embeddings.embed_query *)
  | EvSearch (search_text : string) (top : nat) (* search_client.search *)
  | EvLLM (prompt : string)                   (* llm.invoke *)
  | EvAudit (entry : audit_entry).            (* logger.info AUDIT *)

(** What the external clients answer: a value or a raised exception. *)
Record services := {
  embed_query : string -> result (list float);
  search : string -> list float -> nat -> result (list search_hit);
  llm_invoke : string -> result string
}.

(** Computations that append to the event trace and may raise. *)
Definition M (A : Type) : Type := list event -> list event * result A.

Definition ret {A} (x : A) : M A := fun tr => (tr, Ok x).
Definition raise {A} (e : exn) : M A := fun tr => (tr, Err e).
Definition bind {A B} (m : M A) (k : A -> M B) : M B :=
  fun tr => match m tr with
            | (tr', Ok x) => k x tr'
            | (tr', Err e) => (tr', Err e)
            end.
Definition emit (ev : event) : M unit := fun tr => (tr ++ [ev], Ok tt).

Notation "'let*' x ':=' c 'in' k" := (bind c (fun x => k))
  (at level 200, x name, c at level 100, k at level 200).

(** A call to a client: recorded, then its answer returned or raised. *)
Definition call {A} (ev : event) (r : result A) : M A :=
  let* _ := emit ev in
  match r with Ok x => ret x | Err e => raise e end.

(* ================================================================== *)
(** ** RAGEngine *)

(** [self.min_relevance_score] and [self.top_k_chunks] *)
Record engine := {
  min_relevance_score : float;
  top_k_chunks : nat
}.

Definition rag_engine : engine :=
  {| min_relevance_score := 0.75%float; top_k_chunks := 3 |}.

Definition to_doc (r : search_hit) (score : float) : doc :=
  {| content := default "" (hit_content r);
     source := default "Unknown" (hit_source_file r);
     page := default 0%Z (hit_page_number r);
     compliance := default "UNCLASSIFIED" (hit_compliance_level r);
     relevance_score := score |}.

(** The loop over [results]: keep a hit iff [score >= min_relevance_score]. *)
Fixpoint filter_relevant (eng : engine) (results : list search_hit) : list doc :=
  match results with
  | [] => []
  | r :: rs =>
      let score := default 0%float (hit_score r) in
      if (min_relevance_score eng <=? score)%float
      then to_doc r score :: filter_relevant eng rs
      else filter_relevant eng rs
  end.

(** [search_documents]: errors of either client are re-raised. *)
Definition search_documents (svc : services) (eng : engine) (question : string)
    : M (list doc) :=
  let* question_embedding := call (EvEmbed question) (embed_query svc question) in
  let* results := call (EvSearch question (top_k_chunks eng))
                       (search svc question question_embedding (top_k_chunks eng)) in
  ret (filter_relevant eng results).

(** The answer dict.  [ans_confidence_score] is the float that the dict
    renders as [f"{avg_confidence:.2%}"]; [ans_sources] is [list(set(...))],
    whose order Python leaves to the set (here: first occurrence). *)
Record answer := {
  ans_text : string;
  ans_sources : list string;
  ans_confidence : string;
  ans_warning : option string;
  ans_confidence_score : option float;
  ans_documents_used : option nat
}.

Definition nl : string := String (ascii_of_nat 10) EmptyString.
Definition dq : string := String (ascii_of_nat 34) EmptyString.

Definition insufficient_answer : answer :=
  {| ans_text := "Não encontrei informações confiáveis nos documentos aprovados para responder esta pergunta.";
     ans_sources := [];
     ans_confidence := "BAIXA";
     ans_warning := Some "Resposta baseada em dados insuficientes";
     ans_confidence_score := None;
     ans_documents_used := None |}.

Definition context_of (docs : list doc) : string :=
  String.concat (nl ++ nl ++ "---" ++ nl ++ nl)
    (map (fun d => "Documento: " ++ source d ++ " (Página " ++ pretty (page d) ++ ")"
                   ++ nl ++ content d)%string docs).

Definition source_label (d : doc) : string :=
  (source d ++ " (p. " ++ pretty (page d) ++ ")")%string.

Fixpoint dedup (l : list string) : list string :=
  match l with
  | [] => []
  | x :: r => x :: List.filter (fun y => negb (String.eqb x y)) (dedup r)
  end.

Definition system_prompt (context question : string) : string :=
  String.concat nl
    ["Você é um assistente de auditoria técnica especializado em compliance.";
     "";
     "INSTRUÇÕES CRÍTICAS:";
     "1. Responda APENAS com base no contexto fornecido abaixo";
     "2. Se a informação não estiver no contexto, diga explicitamente " ++ dq
       ++ "não encontrei essa informação nos documentos" ++ dq;
     "3. NUNCA invente ou especule informações";
     "4. Cite especificamente qual documento suporta cada afirmação";
     "5. Use linguagem técnica precisa";
     "6. Mantenha respostas objetivas e concisas (máximo 3 parágrafos)";
     "";
     "CONTEXTO DOS DOCUMENTOS APROVADOS:";
     context;
     "";
     "PERGUNTA: " ++ question;
     "";
     "RESPOSTA (baseada APENAS no contexto acima):"]%string.

(** [sum(doc['relevance_score'] for doc in docs) / len(docs)] *)
Definition avg_confidence (docs : list doc) : float :=
  (fold_left (fun acc d => acc + relevance_score d) docs 0
   / of_uint63 (Uint63.of_Z (Z.of_nat (length docs))))%float.

Definition confidence_level (avg : float) : string :=
  if (0.9 <=? avg)%float then "ALTA"
  else if (0.75 <=? avg)%float then "MÉDIA"
  else "BAIXA".

(** [_log_audit] *)
Definition log_audit (timestamp client_ip question : string) (sources : list string)
    (confidence : float) : M unit :=
  emit (EvAudit {| audit_timestamp := timestamp;
                   audit_client_ip := client_ip;
                   audit_question_hash := question_hash question;
                   audit_sources := sources;
                   audit_confidence := confidence |}).

(** [generate_answer]; [timestamp] is [datetime.now().isoformat()] at the
    audit call.  The [except] clause logs and re-raises. *)
Definition generate_answer (svc : services) (timestamp question : string)
    (docs : list doc) (client_ip : string) : M answer :=
  match docs with
  | [] => ret insufficient_answer
  | _ =>
      let context := context_of docs in
      let sources := dedup (map source_label docs) in
      let prompt := system_prompt context question in
      let* answer := call (EvLLM prompt) (llm_invoke svc prompt) in
      let avg := avg_confidence docs in
      let level := confidence_level avg in
      let* _ := log_audit timestamp client_ip question (map source docs) avg in
      ret {| ans_text := answer;
             ans_sources := sources;
             ans_confidence := level;
             ans_warning := None;
             ans_confidence_score := Some avg;
             ans_documents_used := Some (length docs) |}
  end.

(* ================================================================== *)
(** ** The HTTP endpoint ask_compliance *)

(** [req.get_json()] and the body it parses. *)
Inductive body :=
  | BodyInvalidJson                        (* get_json raises ValueError *)
  | BodyObject (question : option pyval)   (* a JSON object; its 'question' key *)
  | BodyNotObject.                         (* a JSON array, string or number *)

Record request := {
  x_forwarded_for : option string;
  req_body : body
}.

(** The response, by status code.  [Resp429] carries the
    [retry_after_seconds] parsed back from the limiter's message, [Resp200]
    the answer and [rate_limit_remaining]. *)
Inductive response :=
  | Resp429 (retry_after_seconds : Z)
  | Resp400 (error : string)
  | Resp503
  | Resp500
  | Resp200 (result : answer) (rate_limit_remaining : Z).

Definition status_code (r : response) : Z :=
  match r with
  | Resp429 _ => 429 | Resp400 _ => 400 | Resp503 => 503
  | Resp500 => 500 | Resp200 _ _ => 200
  end.

Definition msg_invalid_json := "JSON inválido".

(** [req.headers.get('X-Forwarded-For', 'unknown')] *)
Definition client_of (req : request) : string :=
  default "unknown" (x_forwarded_for req).

(** [ask_compliance(req)] at instant [now] ([timestamp] is its ISO text),
    with the global [rate_limiter] state [rl] and the event trace [tr].
    An exception escaping the steps is caught by the outer [except] and
    answered with status 500. *)
Definition ask_compliance (svc : services) (eng : engine) (rl : RateLimiter.t)
    (req : request) (now : Z) (timestamp : string) (tr : list event)
    : RateLimiter.t * list event * response :=
  let client_ip := client_of req in
  let '(rl1, allowed) := RateLimiter.is_allowed rl client_ip now in
  match allowed with
  | Err _ => (rl1, tr, Resp500)
  | Ok (false, msg) =>
      let secs := match msg with RateLimiter.RateExceeded s => s | RateLimiter.RateOK => 0%Z end in
      (rl1, tr, Resp429 secs)
  | Ok (true, _) =>
      match req_body req with
      | BodyInvalidJson => (rl1, tr, Resp400 msg_invalid_json)
      | BodyNotObject => (rl1, tr, Resp500)
      | BodyObject q =>
          let question := default (PyStr "") q in
          let '(is_valid, sanitized_question, error_msg) := validate_question question in
          if negb is_valid then (rl1, tr, Resp400 error_msg) else
          match search_documents svc eng sanitized_question tr with
          | (tr1, Err _) => (rl1, tr1, Resp503)
          | (tr1, Ok relevant_docs) =>
              match generate_answer svc timestamp sanitized_question relevant_docs
                                    client_ip tr1 with
              | (tr2, Err _) => (rl1, tr2, Resp500)
              | (tr2, Ok result) =>
                  (rl1, tr2, Resp200 result
                     (RateLimiter.max_requests rl1
                      - Z.of_nat (length (RateLimiter.stamps rl1 client_ip))))
              end
          end
      end
  end.

(* ------------------------------------------------------------------ *)
(** Concrete collaborators for the examples below. *)

Definition hit (score : float) (src : string) (pg : Z) : search_hit :=
  {| hit_score := Some score; hit_content := Some ("Trecho de " ++ src)%string;
     hit_source_file := Some src; hit_page_number := Some pg;
     hit_compliance_level := Some "CONFIDENTIAL" |}.

Definition policy_hits : list search_hit :=
  [hit 0.92 "politica.pdf" 3; hit 0.88 "politica.pdf" 4; hit 0.5 "anexo.pdf" 1].

Definition svc_ok (hits : list search_hit) : services :=
  {| embed_query := fun _ => Ok [0.1; 0.2]%float;
     search := fun _ _ _ => Ok hits;
     llm_invoke := fun _ => Ok "A politica exige senhas fortes." |}.

Definition svc_llm_down (hits : list search_hit) : services :=
  {| embed_query := fun _ => Ok [0.1; 0.2]%float;
     search := fun _ _ _ => Ok hits;
     llm_invoke := fun _ => Err (ServiceError "RateLimitError: quota") |}.

Definition ask (q : string) : request :=
  {| x_forwarded_for := Some "10.0.0.1"; req_body := BodyObject (Some (PyStr q)) |}.

(** The audit entries of a trace. *)
Fixpoint audits (tr : list event) : list audit_entry :=
  match tr with
  | [] => []
  | EvAudit e :: r => e :: audits r
  | _ :: r => audits r
  end.

(** Whether an event is a call to one of the external clients. *)
Definition is_collaborator_call (ev : event) : bool :=
  match ev with
  | EvEmbed _ | EvSearch _ _ | EvLLM _ => true
  | EvAudit _ => false
  end.

(* ================================================================== *)
(** ** Auxiliary definitions of the proofs *)

(** The audit entry [_log_audit] writes for [docs]. *)
Definition audit_of (timestamp client_ip question : string) (docs : list doc) : audit_entry :=
  {| audit_timestamp := timestamp;
     audit_client_ip := client_ip;
     audit_question_hash := question_hash question;
     audit_sources := map source docs;
     audit_confidence := avg_confidence docs |}.

(** The evidence [search_documents] keeps from [policy_hits]. *)
Definition policy_docs : list doc := filter_relevant rag_engine policy_hits.

(** An instant lies in the window [[a, a + w)]. *)
Definition in_window (a w t : Z) : Prop := (a <= t < a + w)%Z.

(** The answer to a check when the retained instants are [ls]. *)
Definition deny_with (rl : RateLimiter.t) (ls : list Z) (now : Z)
  : result (bool * RateLimiter.rate_msg) :=
  match RateLimiter.py_min ls with
  | Ok m => Ok (false, RateLimiter.RateExceeded (RateLimiter.retry_after_secs rl m now))
  | Err e => Err e
  end.

(** Eleven checks one second apart. *)
Definition eleven_checks : list Z :=
  [0; 1000000; 2000000; 3000000; 4000000; 5000000; 6000000; 7000000; 8000000;
   9000000; 10000000]%Z.

(** [c * n] *)
Fixpoint str_repeat (n : nat) (c : ascii) : string :=
  match n with
  | O => EmptyString
  | S k => String c (str_repeat k c)
  end.

(** A script tag followed by a thousand letters. *)
Definition long_script_question : string :=
  ("<script" ++ str_repeat 1000 "a"%char)%string.

(* ================================================================== *)
(** ** The 429 body: [int(rate_message.split()[-1].replace('s', ''))] *)

(** The message of a denial:
    [f"Rate limit excedido. Tente novamente em {int(retry_after)}s"];
    an [int] is rendered by [str] in decimal, with a leading [-] when
    negative. *)
Definition rate_message (retry_secs : Z) : string :=
  ("Rate limit excedido. Tente novamente em " ++ pretty retry_secs ++ "s")%string.

(** [s.split()] with no argument: the maximal runs of characters that
    are not whitespace ([str.isspace]), in order. *)
Fixpoint split_ws (s : string) : list string :=
  match s with
  | EmptyString => []
  | String c r =>
      if PyStr.is_space c then split_ws r
      else match r with
           | EmptyString => [String c EmptyString]
           | String c' _ =>
               if PyStr.is_space c' then String c EmptyString :: split_ws r
               else match split_ws r with
                    | w :: ws => String c w :: ws
                    | [] => [String c EmptyString]
                    end
           end
  end.

(** [l[-1]]; [None] where Python raises [IndexError]. *)
Fixpoint py_last {A} (l : list A) : option A :=
  match l with
  | [] => None
  | [x] => Some x
  | _ :: r => py_last r
  end.

(** [s.replace(c, '')] for a one-character [c]: every [c] removed. *)
Fixpoint remove_char (c : ascii) (s : string) : string :=
  match s with
  | EmptyString => EmptyString
  | String c' r => if Ascii.eqb c' c then remove_char c r else String c' (remove_char c r)
  end.

(** The decimal digits [0-9] ([str.isdecimal] on Latin-1). *)
Definition is_digit (c : ascii) : bool :=
  ((48 <=? nat_of_ascii c) && (nat_of_ascii c <=? 57))%nat.

Definition digit_val (c : ascii) : Z := Z.of_nat (nat_of_ascii c - 48).

(** The digits part of [int(s)]: [digit (['_'] digit)*], read into [acc];
    [after_digit] says whether the previous character was a digit. *)
Fixpoint digits_value (s : string) (acc : Z) (after_digit : bool) : option Z :=
  match s with
  | EmptyString => if after_digit then Some acc else None
  | String c r =>
      if is_digit c then digits_value r (10 * acc + digit_val c)%Z true
      else if after_digit && Ascii.eqb c "_" then digits_value r acc false
      else None
  end.

(** [int(s)] on a [str]: surrounding whitespace is ignored, then an
    optional sign and the digits; [None] where Python raises
    [ValueError]. *)
Definition py_int (s : string) : option Z :=
  let t := PyStr.strip s in
  match t with
  | EmptyString => None
  | String c r =>
      if Ascii.eqb c "-" then option_map Z.opp (digits_value r 0 false)
      else if Ascii.eqb c "+" then digits_value r 0 false
      else digits_value t 0 false
  end.

(** The [retry_after_seconds] field of the 429 body, computed from the
    limiter's message; [None] where the expression raises. *)
Definition retry_after_of_message (msg : string) : option Z :=
  match py_last (split_ws msg) with
  | None => None
  | Some w => py_int (remove_char "s" w)
  end.

(** Every character of [s] satisfies [p]. *)
Fixpoint str_forall (p : ascii -> bool) (s : string) : bool :=
  match s with
  | EmptyString => true
  | String c r => p c && str_forall p r
  end.

(* ------------------------------------------------------------------ *)
(** Runs of checks of the rate limiter. *)

(** Instants in non-decreasing order, as successive [datetime.now()]. *)
Fixpoint nondecreasing (ts : list Z) : bool :=
  match ts with
  | t1 :: ((t2 :: _) as r) => (t1 <=? t2)%Z && nondecreasing r
  | _ => true
  end.

(** The instants of [ts] whose check answered [(True, "OK")]. *)
Fixpoint admitted_of (ts : list Z) (rs : list (result (bool * RateLimiter.rate_msg)))
    : list Z :=
  match ts, rs with
  | t :: ts', Ok (true, _) :: rs' => t :: admitted_of ts' rs'
  | _ :: ts', _ :: rs' => admitted_of ts' rs'
  | _, _ => []
  end.

Definition admitted (rl : RateLimiter.t) (c : string) (ts : list Z) : list Z :=
  admitted_of ts (snd (RateLimiter.run_checks rl c ts)).

(** The instants of [l] in the interval [[a, a + w)]. *)
Definition in_interval (a w : Z) (l : list Z) : list Z :=
  List.filter (fun t => (a <=? t) && (t <? a + w))%Z l.


(** A request whose body has no ["question"] key. *)
Definition ask_no_question : request :=
  {| x_forwarded_for := Some "10.0.0.1"; req_body := BodyObject None |}.


(** A client's stored instants one short of, and at, the global limit. *)
Definition nine_stamps : list Z := [0; 1; 2; 3; 4; 5; 6; 7; 8]%Z.
Definition ten_stamps : list Z := [0; 1; 2; 3; 4; 5; 6; 7; 8; 9]%Z.

(* ================================================================== *)
(** * Proofs *)

(** ** The code on concrete inputs *)

Example validate_ok :
  validate_question (PyStr "  Qual a politica de senhas?  ")
  = (true, "Qual a politica de senhas?", "").
Proof. reflexivity. Qed.

Example validate_script :
  validate_question (PyStr "x <SCRIPT>alert(1)</script>")
  = (false, "", msg_suspicious).
Proof. reflexivity. Qed.

Example rate_limiter_eleventh :
  snd (RateLimiter.run_checks RateLimiter.rate_limiter "10.0.0.1"
         (map (fun i => i * 1000000)%Z [0;1;2;3;4;5;6;7;8;9;10]%Z))
  = repeat (Ok (true, RateLimiter.RateOK)) 10
    ++ [Ok (false, RateLimiter.RateExceeded 50)].
Proof. reflexivity. Qed.

Example question_hash_abc : question_hash "abc" = "ba7816bf8f01cfea".
Proof. vm_compute. reflexivity. Qed.

Example question_hash_latin1 : question_hash (String (ascii_of_nat 227) EmptyString) = "59c63e6cac333a7b".
Proof. vm_compute. reflexivity. Qed.

Example question_hash_two_blocks :
  question_hash "xxxxxxxxxxxxxxxxxxxxxxxxxxxxxxxxxxxxxxxxxxxxxxxxxxxxxxxxxxxxxxxxxxxxxx"
  = "c71bd109227e2343".
Proof. vm_compute. reflexivity. Qed.

Example ask_policy_high :
  match ask_compliance (svc_ok policy_hits) rag_engine RateLimiter.rate_limiter
          (ask "O que diz a politica de senhas?") 0 "2026-01-01T00:00:00" [] with
  | (_, _, Resp200 r rem) =>
      ans_confidence r = "ALTA" /\ length (ans_sources r) = 2 /\ rem = 9%Z
  | _ => False
  end.
Proof. vm_compute. auto. Qed.

(** ** Floats: the two comparisons agree *)

Lemma SFcompare_swap (x y : spec_float) :
  SFcompare y x = option_map CompOpp (SFcompare x y).
Proof.
  destruct x as [sx|sx| |sx mx ex], y as [sy|sy| |sy my ey];
    try destruct sx; try destruct sy; simpl; auto.
  all: rewrite (Z.compare_antisym ex ey); destruct (Z.compare ex ey); simpl; auto.
  all: change (Pos.compare_cont Eq my mx) with (Pos.compare my mx);
       change (Pos.compare_cont Eq mx my) with (Pos.compare mx my);
       rewrite (Pos.compare_antisym mx my); destruct (Pos.compare my mx); reflexivity.
Qed.

Lemma float_ltb_leb_false (x y : float) :
  (y <? x)%float = true -> (x <=? y)%float = false.
Proof.
  rewrite ltb_spec, leb_spec. unfold SFltb, SFleb.
  rewrite (SFcompare_swap (Prim2SF x)).
  destruct (SFcompare (Prim2SF x) (Prim2SF y)) as [[]|]; simpl; congruence.
Qed.

(** ** The monad *)

Lemma call_ok {A} (ev : event) (x : A) tr : call ev (Ok x) tr = (tr ++ [ev], Ok x).
Proof. reflexivity. Qed.

Lemma call_err {A} (ev : event) e tr : call (A:=A) ev (Err e) tr = (tr ++ [ev], Err e).
Proof. reflexivity. Qed.

(** ** Retriever *)

Lemma filter_relevant_spec (eng : engine) (results : list search_hit) (d : doc) :
  In d (filter_relevant eng results) <->
  exists r, In r results
            /\ (min_relevance_score eng <=? default 0%float (hit_score r))%float = true
            /\ d = to_doc r (default 0%float (hit_score r)).
Proof.
  induction results as [|r rs IH]; simpl.
  - split; [tauto | intros (r & [] & _)].
  - destruct (min_relevance_score eng <=? default 0%float (hit_score r))%float eqn:Hs;
      simpl; rewrite IH; split.
    + intros [<-|(r' & Hin & Hle & ->)]; eauto 6.
    + intros (r' & [<-|Hin] & Hle & ->); eauto 6.
    + intros (r' & Hin & Hle & ->); eauto 6.
    + intros (r' & [<-|Hin] & Hle & ->); [congruence | eauto 6].
Qed.

Lemma filter_relevant_scores (eng : engine) (results : list search_hit) (d : doc) :
  In d (filter_relevant eng results) ->
  (min_relevance_score eng <=? relevance_score d)%float = true.
Proof.
  rewrite filter_relevant_spec. intros (r & _ & Hle & ->). exact Hle.
Qed.

(** C3: the documents returned by a successful [search_documents] are
    exactly the search hits whose score [s] satisfies [s >= threshold]
    (a hit without a score counts as 0), so no returned document has a
    score below the threshold, and a score equal to it is kept. *)
Theorem search_documents_threshold (svc : services) (eng : engine)
    (question : string) (tr tr' : list event) (docs : list doc) :
  search_documents svc eng question tr = (tr', Ok docs) ->
  exists emb results,
    embed_query svc question = Ok emb
    /\ search svc question emb (top_k_chunks eng) = Ok results
    /\ (forall d, In d docs <->
          exists r, In r results
                    /\ (min_relevance_score eng <=? default 0%float (hit_score r))%float = true
                    /\ d = to_doc r (default 0%float (hit_score r)))
    /\ (forall d, In d docs ->
          (min_relevance_score eng <=? relevance_score d)%float = true
          /\ (relevance_score d <? min_relevance_score eng)%float = false).
Proof.
  unfold search_documents, bind, call, bind, emit, ret, raise.
  destruct (embed_query svc question) as [emb|e] eqn:He; [|discriminate].
  destruct (search svc question emb (top_k_chunks eng)) as [results|e] eqn:Hs;
    [|discriminate].
  intros H. inversion H; subst. exists emb, results.
  split; [first [exact He | reflexivity]|]. split; [first [exact Hs | reflexivity]|]. split.
  - intro d. apply filter_relevant_spec.
  - intros d Hd. pose proof (filter_relevant_scores _ _ _ Hd) as Hle. split; [exact Hle|].
    destruct (relevance_score d <? min_relevance_score eng)%float eqn:Hlt; [|reflexivity].
    apply float_ltb_leb_false in Hlt. congruence.
Qed.

Lemma search_documents_threshold_witness :
  search_documents (svc_ok policy_hits) rag_engine "senhas" []
  = ([EvEmbed "senhas"; EvSearch "senhas" 3],
     Ok (filter_relevant rag_engine policy_hits))
  /\ exists emb results,
    embed_query (svc_ok policy_hits) "senhas" = Ok emb
    /\ search (svc_ok policy_hits) "senhas" emb (top_k_chunks rag_engine) = Ok results
    /\ (forall d, In d (filter_relevant rag_engine policy_hits) <->
          exists r, In r results
                    /\ (min_relevance_score rag_engine <=? default 0%float (hit_score r))%float = true
                    /\ d = to_doc r (default 0%float (hit_score r)))
    /\ (forall d, In d (filter_relevant rag_engine policy_hits) ->
          (min_relevance_score rag_engine <=? relevance_score d)%float = true
          /\ (relevance_score d <? min_relevance_score rag_engine)%float = false).
Proof.
  split; [vm_compute; reflexivity|].
  apply (search_documents_threshold (svc_ok policy_hits) rag_engine "senhas" []
           [EvEmbed "senhas"; EvSearch "senhas" 3]).
  vm_compute. reflexivity.
Defined.

(** ** Answer composer *)

(** C4: with no evidence, [generate_answer] returns the fixed
    insufficient-information answer (no sources, confidence BAIXA, i.e.
    LOW) and leaves the trace as it was: the LLM is never called, whatever
    the collaborators would do. *)
Theorem generate_answer_no_evidence (svc : services) (timestamp question client_ip : string)
    (tr : list event) :
  generate_answer svc timestamp question [] client_ip tr = (tr, Ok insufficient_answer)
  /\ ans_text insufficient_answer
     = "Não encontrei informações confiáveis nos documentos aprovados para responder esta pergunta."
  /\ ans_sources insufficient_answer = []
  /\ ans_confidence insufficient_answer = "BAIXA".
Proof. repeat split. Qed.

Lemma generate_answer_evidence (svc : services) (timestamp question client_ip : string)
    (docs : list doc) (tr : list event) :
  docs <> [] ->
  let prompt := system_prompt (context_of docs) question in
  generate_answer svc timestamp question docs client_ip tr =
  match llm_invoke svc prompt with
  | Ok txt =>
      ((tr ++ [EvLLM prompt]) ++ [EvAudit (audit_of timestamp client_ip question docs)],
       Ok {| ans_text := txt;
             ans_sources := dedup (map source_label docs);
             ans_confidence := confidence_level (avg_confidence docs);
             ans_warning := None;
             ans_confidence_score := Some (avg_confidence docs);
             ans_documents_used := Some (length docs) |})
  | Err e => (tr ++ [EvLLM prompt], Err e)
  end.
Proof.
  intros Hne prompt. destruct docs as [|d ds]; [congruence|].
  unfold generate_answer, bind, call, emit, ret, raise, log_audit, audit_of.
  fold prompt. destruct (llm_invoke svc prompt); reflexivity.
Qed.

(** C5: on the successful generative path, the confidence score is
    [sum of relevance scores / number of documents] (IEEE double
    arithmetic, as Python computes it) and the label is ALTA (HIGH) when
    that mean is [>= 0.9], MÉDIA (MEDIUM) when it is [>= 0.75] but not
    [>= 0.9], and BAIXA (LOW) otherwise; both comparisons are inclusive. *)
Theorem generate_answer_confidence (svc : services) (timestamp question client_ip : string)
    (docs : list doc) (tr : list event) (txt : string) :
  docs <> [] ->
  llm_invoke svc (system_prompt (context_of docs) question) = Ok txt ->
  let mean := (fold_left (fun acc d => acc + relevance_score d) docs 0
               / of_uint63 (Uint63.of_Z (Z.of_nat (length docs))))%float in
  exists tr' ans,
    generate_answer svc timestamp question docs client_ip tr = (tr', Ok ans)
    /\ ans_confidence_score ans = Some mean
    /\ ((0.9 <=? mean)%float = true -> ans_confidence ans = "ALTA")
    /\ ((0.9 <=? mean)%float = false -> (0.75 <=? mean)%float = true ->
        ans_confidence ans = "MÉDIA")
    /\ ((0.9 <=? mean)%float = false -> (0.75 <=? mean)%float = false ->
        ans_confidence ans = "BAIXA").
Proof.
  intros Hne Hllm mean.
  rewrite (generate_answer_evidence svc timestamp question client_ip docs tr Hne).
  cbv zeta. rewrite Hllm.
  eexists _, _. split; [reflexivity|]. simpl.
  unfold confidence_level, avg_confidence. fold mean.
  split; [reflexivity|].
  repeat split; intros H1; try intros H2; rewrite ?H1, ?H2; reflexivity.
Qed.


Lemma generate_answer_confidence_witness :
  policy_docs <> []
  /\ llm_invoke (svc_ok policy_hits)
       (system_prompt (context_of policy_docs) "O que diz a politica de senhas?")
     = Ok "A politica exige senhas fortes."
  /\ let mean := (fold_left (fun acc d => acc + relevance_score d) policy_docs 0
                  / of_uint63 (Uint63.of_Z (Z.of_nat (length policy_docs))))%float in
     exists tr' ans,
       generate_answer (svc_ok policy_hits) "2026-01-01T00:00:00"
         "O que diz a politica de senhas?" policy_docs "10.0.0.1" [] = (tr', Ok ans)
       /\ ans_confidence_score ans = Some mean
       /\ ((0.9 <=? mean)%float = true -> ans_confidence ans = "ALTA")
       /\ ((0.9 <=? mean)%float = false -> (0.75 <=? mean)%float = true ->
           ans_confidence ans = "MÉDIA")
       /\ ((0.9 <=? mean)%float = false -> (0.75 <=? mean)%float = false ->
           ans_confidence ans = "BAIXA").
Proof.
  split; [vm_compute; discriminate|]. split; [reflexivity|].
  apply (generate_answer_confidence (svc_ok policy_hits) "2026-01-01T00:00:00"
           "O que diz a politica de senhas?" "10.0.0.1" policy_docs [] 
           "A politica exige senhas fortes.").
  - vm_compute. discriminate.
  - reflexivity.
Defined.

(** ** Audit hash *)

Lemma be_bytes_length (n : nat) (x : Z) : length (Sha256.be_bytes n x) = n.
Proof. unfold Sha256.be_bytes. rewrite length_map, length_seq. reflexivity. Qed.

Lemma digest_length (msg : list Z) : length (Sha256.digest msg) = 32%nat.
Proof.
  unfold Sha256.digest. cbv zeta.
  repeat rewrite length_app. rewrite !be_bytes_length. reflexivity.
Qed.

Lemma hex_length (bs : list Z) : String.length (Sha256.hex bs) = (2 * length bs)%nat.
Proof. induction bs as [|x r IH]; simpl; [reflexivity|]. rewrite IH. lia. Qed.

Lemma substring_0_length (m : nat) (s : string) :
  (m <= String.length s)%nat -> String.length (substring 0 m s) = m.
Proof.
  revert s. induction m as [|m IH]; intros s Hle; destruct s as [|c s]; simpl in *;
    try reflexivity; try lia.
  rewrite IH; [reflexivity | lia].
Qed.

(** Every question hash is 16 characters long, whatever the question. *)
Lemma question_hash_length (question : string) :
  String.length (question_hash question) = 16%nat.
Proof.
  unfold question_hash, Sha256.hexdigest. apply substring_0_length.
  rewrite hex_length, digest_length. lia.
Qed.

Lemma audits_app (l1 l2 : list event) : audits (l1 ++ l2) = audits l1 ++ audits l2.
Proof. induction l1 as [|[] r IH]; simpl; rewrite ?IH; reflexivity. Qed.

Lemma search_documents_trace (svc : services) (eng : engine) (question : string)
    (tr tr' : list event) (r : result (list doc)) :
  search_documents svc eng question tr = (tr', r) ->
  exists calls, tr' = tr ++ calls /\ audits calls = []
                /\ Forall (fun ev => is_collaborator_call ev = true) calls.
Proof.
  intros H. cbv [search_documents bind call emit ret raise] in H.
  destruct (embed_query svc question) as [emb|e];
    [destruct (search svc question emb (top_k_chunks eng)) as [results|e]|];
    inversion H; subst.
  all: eexists; split; [rewrite <- ?app_assoc; reflexivity
                       | split; [reflexivity | repeat constructor]].
Qed.

(** ** The endpoint *)

Lemma ask_compliance_admitted (svc : services) (eng : engine) (rl rl1 : RateLimiter.t)
    (req : request) (now : Z) (timestamp : string) (tr : list event)
    (q : option pyval) (sq err : string) :
  RateLimiter.is_allowed rl (client_of req) now = (rl1, Ok (true, RateLimiter.RateOK)) ->
  req_body req = BodyObject q ->
  validate_question (default (PyStr "") q) = (true, sq, err) ->
  ask_compliance svc eng rl req now timestamp tr =
  match search_documents svc eng sq tr with
  | (tr1, Err _) => (rl1, tr1, Resp503)
  | (tr1, Ok docs) =>
      match generate_answer svc timestamp sq docs (client_of req) tr1 with
      | (tr2, Err _) => (rl1, tr2, Resp500)
      | (tr2, Ok result) =>
          (rl1, tr2, Resp200 result
             (RateLimiter.max_requests rl1
              - Z.of_nat (length (RateLimiter.stamps rl1 (client_of req)))))
      end
  end.
Proof.
  intros Hal Hb Hv. unfold ask_compliance. rewrite Hal, Hb. cbv zeta. rewrite Hv.
  reflexivity.
Qed.

(** C1 (as the code does it): when the LLM call fails on a non-empty
    evidence set, [generate_answer] re-raises the error after the call
    (no answer is built, no audit entry is written), and the endpoint
    answers with status 500. *)
Theorem ask_compliance_llm_failure (svc : services) (eng : engine) (rl rl1 : RateLimiter.t)
    (req : request) (now : Z) (timestamp : string) (tr tr1 : list event)
    (q : option pyval) (sq err : string) (docs : list doc) (e : exn) :
  RateLimiter.is_allowed rl (client_of req) now = (rl1, Ok (true, RateLimiter.RateOK)) ->
  req_body req = BodyObject q ->
  validate_question (default (PyStr "") q) = (true, sq, err) ->
  search_documents svc eng sq tr = (tr1, Ok docs) ->
  docs <> [] ->
  llm_invoke svc (system_prompt (context_of docs) sq) = Err e ->
  generate_answer svc timestamp sq docs (client_of req) tr1
    = (tr1 ++ [EvLLM (system_prompt (context_of docs) sq)], Err e)
  /\ ask_compliance svc eng rl req now timestamp tr
    = (rl1, tr1 ++ [EvLLM (system_prompt (context_of docs) sq)], Resp500).
Proof.
  intros Hal Hb Hv Hs Hne Hllm.
  assert (Hg : generate_answer svc timestamp sq docs (client_of req) tr1
               = (tr1 ++ [EvLLM (system_prompt (context_of docs) sq)], Err e)).
  { rewrite (generate_answer_evidence svc timestamp sq (client_of req) docs tr1 Hne).
    cbv zeta. rewrite Hllm. reflexivity. }
  split; [exact Hg|].
  rewrite (ask_compliance_admitted svc eng rl rl1 req now timestamp tr q sq err Hal Hb Hv).
  rewrite Hs, Hg. reflexivity.
Qed.

Lemma ask_compliance_llm_failure_witness :
  exists rl1 tr1,
    ask_compliance (svc_llm_down policy_hits) rag_engine RateLimiter.rate_limiter
      (ask "O que diz a politica de senhas?") 0 "2026-01-01T00:00:00" []
    = (rl1, tr1, Resp500).
Proof.
  do 2 eexists.
  eapply (ask_compliance_llm_failure (svc_llm_down policy_hits) rag_engine
            RateLimiter.rate_limiter _ (ask "O que diz a politica de senhas?") 0
            "2026-01-01T00:00:00" []).
  - vm_compute. reflexivity.
  - reflexivity.
  - vm_compute. reflexivity.
  - vm_compute. reflexivity.
  - vm_compute. discriminate.
  - reflexivity.
Defined.

(** C1 as stated fails: with a failing LLM, [generate_answer] raises
    instead of returning a CONTINGENCY answer, and the request fails with
    status 500. *)
Lemma llm_failure_no_contingency :
  (exists tr, generate_answer (svc_llm_down policy_hits) "2026-01-01T00:00:00"
                "O que diz a politica de senhas?" policy_docs "10.0.0.1" []
              = (tr, Err (ServiceError "RateLimitError: quota")))
  /\ (exists rl' tr',
        ask_compliance (svc_llm_down policy_hits) rag_engine RateLimiter.rate_limiter
          (ask "O que diz a politica de senhas?") 0 "2026-01-01T00:00:00" []
        = (rl', tr', Resp500)).
Proof. split; do 2 try eexists; vm_compute; reflexivity. Qed.

(** C2 (the code diverges from the spec): an admitted request with a
    valid question whose search returns no relevant document is answered
    200 with the insufficient-information answer, and the log gains only
    the embedding and search calls: [generate_answer] returns before
    [_log_audit], so no audit entry is written for that answered request. *)
Theorem ask_compliance_empty_evidence_unaudited (svc : services) (eng : engine)
    (rl rl1 : RateLimiter.t) (req : request) (now : Z) (timestamp : string)
    (tr tr1 : list event) (m : RateLimiter.rate_msg) (q : option pyval) (sq err : string) :
  RateLimiter.is_allowed rl (client_of req) now = (rl1, Ok (true, m)) ->
  req_body req = BodyObject q ->
  validate_question (default (PyStr "") q) = (true, sq, err) ->
  search_documents svc eng sq tr = (tr1, Ok []) ->
  exists rem,
    ask_compliance svc eng rl req now timestamp tr = (rl1, tr1, Resp200 insufficient_answer rem)
    /\ audits tr1 = audits tr.
Proof.
  intros Hal Hb Hv Hs. unfold ask_compliance. rewrite Hal, Hb. cbv zeta. rewrite Hv.
  cbv iota beta. rewrite Hs. eexists. split; [reflexivity|].
  destruct (search_documents_trace _ _ _ _ _ _ Hs) as (calls & -> & Hc & _).
  rewrite audits_app, Hc, app_nil_r. reflexivity.
Qed.

Lemma ask_compliance_empty_evidence_unaudited_witness :
  exists rem,
    RateLimiter.is_allowed RateLimiter.rate_limiter
      (client_of (ask "O que diz a politica de senhas?")) 0
      = (RateLimiter.set_stamps RateLimiter.rate_limiter "10.0.0.1" [0%Z],
         Ok (true, RateLimiter.RateOK))
    /\ req_body (ask "O que diz a politica de senhas?")
       = BodyObject (Some (PyStr "O que diz a politica de senhas?"))
    /\ validate_question (default (PyStr "") (Some (PyStr "O que diz a politica de senhas?")))
       = (true, "O que diz a politica de senhas?", EmptyString)
    /\ search_documents (svc_ok []) rag_engine "O que diz a politica de senhas?" []
       = ([EvEmbed "O que diz a politica de senhas?"; EvSearch "O que diz a politica de senhas?" 3], Ok [])
    /\ ask_compliance (svc_ok []) rag_engine RateLimiter.rate_limiter
         (ask "O que diz a politica de senhas?") 0 "2026-01-01T00:00:00" []
       = (RateLimiter.set_stamps RateLimiter.rate_limiter "10.0.0.1" [0%Z],
          [EvEmbed "O que diz a politica de senhas?"; EvSearch "O que diz a politica de senhas?" 3],
          Resp200 insufficient_answer rem)
    /\ audits [EvEmbed "O que diz a politica de senhas?"; EvSearch "O que diz a politica de senhas?" 3]
       = audits [].
Proof.
  assert (H1 : RateLimiter.is_allowed RateLimiter.rate_limiter
                 (client_of (ask "O que diz a politica de senhas?")) 0
               = (RateLimiter.set_stamps RateLimiter.rate_limiter "10.0.0.1" [0%Z],
                  Ok (true, RateLimiter.RateOK))) by reflexivity.
  assert (H2 : req_body (ask "O que diz a politica de senhas?")
               = BodyObject (Some (PyStr "O que diz a politica de senhas?"))) by reflexivity.
  assert (H3 : validate_question (default (PyStr "") (Some (PyStr "O que diz a politica de senhas?")))
               = (true, "O que diz a politica de senhas?", EmptyString)) by (vm_compute; reflexivity).
  assert (H4 : search_documents (svc_ok []) rag_engine "O que diz a politica de senhas?" []
               = ([EvEmbed "O que diz a politica de senhas?";
                   EvSearch "O que diz a politica de senhas?" 3], Ok [])) by reflexivity.
  destruct (ask_compliance_empty_evidence_unaudited (svc_ok []) rag_engine
              RateLimiter.rate_limiter _ (ask "O que diz a politica de senhas?") 0
              "2026-01-01T00:00:00" [] _ _ _ _ _ H1 H2 H3 H4) as (rem & E & Ha).
  exists rem. repeat split; assumption.
Defined.

(** C2 as stated fails: a request answered from an empty evidence set
    leaves no audit entry. *)
Lemma empty_evidence_not_audited :
  exists rl' tr',
    ask_compliance (svc_ok []) rag_engine RateLimiter.rate_limiter
      (ask "O que diz a politica de senhas?") 0 "2026-01-01T00:00:00" []
    = (rl', tr', Resp200 insufficient_answer 9)
    /\ audits tr' = [].
Proof. do 2 eexists. split; vm_compute; reflexivity. Qed.

Ltac fail_fast_leaf :=
  let H := fresh "H" in
  intros H; inversion H; subst; simpl in *;
  first [reflexivity | match goal with Hs : _ \/ _ |- _ => destruct Hs as [Hc|Hc]; discriminate end].

(** C8: a request refused by the rate limiter is answered 429, one whose
    question fails validation is answered 400, and whenever the answer is
    429 or 400 the trace is untouched: no embedding, search or LLM call
    has been made. *)
Theorem ask_compliance_fail_fast (svc : services) (eng : engine) (rl rl' : RateLimiter.t)
    (req : request) (now : Z) (timestamp : string) (tr tr' : list event)
    (resp : response) :
  ask_compliance svc eng rl req now timestamp tr = (rl', tr', resp) ->
  (forall rl1 msg,
     RateLimiter.is_allowed rl (client_of req) now = (rl1, Ok (false, msg)) ->
     exists secs, resp = Resp429 secs)
  /\ (forall rl1 msg q sq error_msg,
        RateLimiter.is_allowed rl (client_of req) now = (rl1, Ok (true, msg)) ->
        req_body req = BodyObject q ->
        validate_question (default (PyStr "") q) = (false, sq, error_msg) ->
        resp = Resp400 error_msg)
  /\ ((status_code resp = 429 \/ status_code resp = 400)%Z ->
      tr' = tr /\ Forall (fun ev => is_collaborator_call ev = false) (skipn (length tr) tr')).
Proof.
  intros H. split; [|split].
  - intros rl1 msg Hal. unfold ask_compliance in H. rewrite Hal in H.
    inversion H. eauto.
  - intros rl1 msg q sq error_msg Hal Hb Hv. unfold ask_compliance in H.
    rewrite Hal, Hb in H. cbv zeta in H. rewrite Hv in H. inversion H. reflexivity.
  - intros Hst.
    assert (Htr : tr' = tr).
    { revert H. unfold ask_compliance.
      destruct (RateLimiter.is_allowed rl (client_of req) now) as [rl1 [[[] msg]|ex]];
        cbv zeta; [|fail_fast_leaf|fail_fast_leaf].
      destruct (req_body req) as [|q|]; [fail_fast_leaf| |fail_fast_leaf].
      destruct (validate_question (default (PyStr "") q)) as [[[] sq] err]; simpl;
        [|fail_fast_leaf].
      destruct (search_documents svc eng sq tr) as [tr1 [docs|ex]]; [|fail_fast_leaf].
      destruct (generate_answer svc timestamp sq docs (client_of req) tr1)
        as [tr2 [res|ex]]; fail_fast_leaf. }
    subst tr'. split; [reflexivity|]. rewrite skipn_all. constructor.
Qed.

Lemma ask_compliance_fail_fast_witness :
  exists rl' tr' resp,
    ask_compliance (svc_ok policy_hits) rag_engine RateLimiter.rate_limiter (ask "oi?")
      0 "2026-01-01T00:00:00" [] = (rl', tr', resp)
    /\ (forall rl1 msg,
          RateLimiter.is_allowed RateLimiter.rate_limiter (client_of (ask "oi?")) 0
          = (rl1, Ok (false, msg)) ->
          exists secs, resp = Resp429 secs)
    /\ (forall rl1 msg q sq error_msg,
          RateLimiter.is_allowed RateLimiter.rate_limiter (client_of (ask "oi?")) 0
          = (rl1, Ok (true, msg)) ->
          req_body (ask "oi?") = BodyObject q ->
          validate_question (default (PyStr "") q) = (false, sq, error_msg) ->
          resp = Resp400 error_msg)
    /\ ((status_code resp = 429 \/ status_code resp = 400)%Z ->
        tr' = [] /\ Forall (fun ev => is_collaborator_call ev = false)
                           (skipn (length (@nil event)) tr')).
Proof.
  do 3 eexists. split; [reflexivity|].
  eapply (ask_compliance_fail_fast (svc_ok policy_hits) rag_engine RateLimiter.rate_limiter _
           (ask "oi?") 0 "2026-01-01T00:00:00" []).
  reflexivity.
Defined.

(** ** Rate limiter *)

Section RateLimiterProofs.
Import RateLimiter.
Local Open Scope Z_scope.

Lemma stamps_set_stamps (rl : t) (c : string) (l : list Z) :
  stamps (set_stamps rl c l) c = l.
Proof. unfold stamps, set_stamps. simpl. rewrite lookup_insert_eq. reflexivity. Qed.

Lemma fold_min_spec (r : list Z) :
  forall x, In (fold_left Z.min r x) (x :: r)
            /\ Forall (fun z => fold_left Z.min r x <= z) (x :: r).
Proof.
  induction r as [|y r IH]; intros x; simpl.
  - split; [left; reflexivity|]. constructor; [lia | constructor].
  - destruct (IH (Z.min x y)) as [Hin Hall].
    inversion Hall as [|? ? Hxy Hr]; subst.
    split.
    + destruct Hin as [Hin|Hin]; [|right; right; exact Hin].
      destruct (Z.min_spec x y) as [[_ E]|[_ E]];
        [left|right; left]; rewrite <- Hin; symmetry; exact E.
    + constructor; [lia|]. constructor; [lia|]. exact Hr.
Qed.

Lemma py_min_spec (l : list Z) (m : Z) :
  py_min l = Ok m -> In m l /\ Forall (fun x => m <= x) l.
Proof.
  destruct l as [|x r]; simpl; [discriminate|]. intros H. inversion H. apply fold_min_spec.
Qed.

Lemma py_min_nonempty (l : list Z) : l <> [] -> exists m, py_min l = Ok m.
Proof. destruct l; [congruence|]. simpl. eauto. Qed.

(** Every denial reports [int] of the time, in seconds, until the oldest
    retained instant leaves the window; that time is positive. *)
Lemma is_allowed_denial (rl rl' : t) (c : string) (now s : Z) :
  is_allowed rl c now = (rl', Ok (false, RateExceeded s)) ->
  exists oldest,
    py_min (List.filter (fun req_time => now - req_time <? window rl) (stamps rl c))
      = Ok oldest
    /\ s = retry_after_secs rl oldest now
    /\ 0 < oldest + window rl - now
    /\ 0 <= s.
Proof.
  unfold is_allowed.
  set (kept := List.filter (fun req_time => now - req_time <? window rl) (stamps rl c)).
  destruct (max_requests rl <=? Z.of_nat (length kept)); [|discriminate].
  destruct (py_min kept) as [oldest|e] eqn:Hm; [|discriminate].
  intros H. inversion H; subst. exists oldest.
  destruct (py_min_spec _ _ Hm) as [Hin _].
  unfold kept in Hin. apply filter_In in Hin as [_ Hlt]. apply Z.ltb_lt in Hlt.
  split; [reflexivity|]. split; [reflexivity|]. split; [lia|].
  unfold retry_after_secs, us_per_second. apply Z.quot_pos; lia.
Qed.

(** With a positive capacity, [is_allowed] never raises. *)
Lemma is_allowed_ok (rl : t) (c : string) (now : Z) :
  0 < max_requests rl -> exists rl' r, is_allowed rl c now = (rl', Ok r).
Proof.
  intros Hpos. unfold is_allowed.
  set (kept := List.filter (fun req_time => now - req_time <? window rl) (stamps rl c)).
  destruct (max_requests rl <=? Z.of_nat (length kept)) eqn:Hle; [|eauto].
  apply Z.leb_le in Hle.
  destruct (py_min_nonempty kept) as [m Hm].
  { intros E. rewrite E in Hle. simpl in Hle. lia. }
  rewrite Hm. eauto.
Qed.

Lemma run_checks_cons (rl : t) (c : string) (now : Z) (ts : list Z) :
  snd (run_checks rl c (now :: ts))
  = snd (is_allowed rl c now) :: snd (run_checks (fst (is_allowed rl c now)) c ts).
Proof.
  simpl. destruct (is_allowed rl c now) as [rl1 r]. simpl.
  destruct (run_checks rl1 c ts). reflexivity.
Qed.

Lemma in_firstn_in {A} (n : nat) (l : list A) (x : A) : In x (firstn n l) -> In x l.
Proof. intros H. rewrite <- (firstn_skipn n l). apply in_or_app. left. exact H. Qed.

Lemma in_skipn_in {A} (n : nat) (l : list A) (x : A) : In x (skipn n l) -> In x l.
Proof. intros H. rewrite <- (firstn_skipn n l). apply in_or_app. right. exact H. Qed.


Lemma filter_keeps_window (a w now : Z) (l : list Z) :
  in_window a w now -> Forall (in_window a w) l ->
  List.filter (fun req_time => now - req_time <? w) l = l.
Proof.
  intros Hn Hl. induction Hl as [|x l Hx Hl IH]; simpl; [reflexivity|].
  unfold in_window in *. replace (now - x <? w) with true by (symmetry; apply Z.ltb_lt; lia).
  rewrite IH. reflexivity.
Qed.

Lemma run_checks_in_window (a : Z) (ts : list Z) :
  forall (rl : t) (c : string) (l : list Z),
  stamps rl c = l ->
  Forall (in_window a (window rl)) (l ++ ts) ->
  (length l <= Z.to_nat (max_requests rl))%nat ->
  0 < max_requests rl ->
  let k := (Z.to_nat (max_requests rl) - length l)%nat in
  snd (run_checks rl c ts)
  = map (fun _ => Ok (true, RateOK)) (firstn k ts)
    ++ map (deny_with rl (l ++ firstn k ts)) (skipn k ts).
Proof.
  induction ts as [|now ts IH]; intros rl c l Hst Hwin Hlen Hpos k.
  - destruct k; reflexivity.
  - rewrite run_checks_cons.
    apply Forall_app in Hwin as [Hl Hts]. inversion Hts as [|? ? Hnow Hts']; subst.
    assert (Hkeep : List.filter (fun req_time => now - req_time <? window rl)
                                (stamps rl c) = stamps rl c)
      by (apply (filter_keeps_window a); assumption).
    unfold is_allowed at 1 2. rewrite Hkeep.
    destruct (Nat.eq_dec (length (stamps rl c)) (Z.to_nat (max_requests rl))) as [Heq|Hneq].
    + (* the window is full: denied, state kept *)
      replace (max_requests rl <=? Z.of_nat (length (stamps rl c))) with true
        by (symmetry; apply Z.leb_le; lia).
      assert (Hk : k = 0%nat) by (unfold k; lia). rewrite Hk. simpl.
      rewrite app_nil_r.
      assert (Hrest : snd (run_checks (set_stamps rl c (stamps rl c)) c ts)
                      = map (deny_with rl (stamps rl c)) ts).
      { rewrite (IH (set_stamps rl c (stamps rl c)) c (stamps rl c)); simpl.
        - replace (Z.to_nat (max_requests rl) - length (stamps rl c))%nat with 0%nat
            by lia. simpl. rewrite app_nil_r. reflexivity.
        - apply stamps_set_stamps.
        - apply Forall_app. split; assumption.
        - lia.
        - exact Hpos. }
      unfold deny_with at 1.
      destruct (py_min (stamps rl c)); simpl; rewrite Hrest; reflexivity.
    + (* room left: allowed, [now] recorded *)
      replace (max_requests rl <=? Z.of_nat (length (stamps rl c))) with false
        by (symmetry; apply Z.leb_gt; lia).
      assert (Hk : k = S (Z.to_nat (max_requests rl) - length (stamps rl c ++ [now])))
        by (unfold k; rewrite length_app; simpl; lia).
      rewrite Hk. simpl.
      rewrite (IH (set_stamps rl c (stamps rl c ++ [now])) c (stamps rl c ++ [now]));
        simpl.
      * rewrite <- app_assoc. reflexivity.
      * apply stamps_set_stamps.
      * rewrite <- app_assoc. apply Forall_app. split; [assumption|].
        constructor; assumption.
      * rewrite length_app. simpl. lia.
      * exact Hpos.
Qed.

End RateLimiterProofs.

(** C6 (as the code does it), for a limiter of capacity [N >= 1] and a
    client with no recorded instant:
    - a run of more than [N] checks whose instants all lie in one window
      [[a, a + W)] is answered with [N] admissions followed by denials;
    - the first check of such a client is admitted;
    - every denial reports [int] of the time in seconds until the oldest
      retained instant leaves the window, i.e. that time truncated to whole
      seconds; the time itself is positive and the report non-negative. *)
Theorem rate_limiter_window (rl : RateLimiter.t) (c : string) (a : Z) (ts : list Z) :
  RateLimiter.stamps rl c = [] ->
  (0 < RateLimiter.max_requests rl)%Z ->
  Forall (in_window a (RateLimiter.window rl)) ts ->
  (Z.to_nat (RateLimiter.max_requests rl) < length ts)%nat ->
  let n := Z.to_nat (RateLimiter.max_requests rl) in
  (exists oldest,
     RateLimiter.py_min (firstn n ts) = Ok oldest
     /\ length (firstn n ts) = n
     /\ snd (RateLimiter.run_checks rl c ts)
        = map (fun _ => Ok (true, RateLimiter.RateOK)) (firstn n ts)
          ++ map (fun now => Ok (false, RateLimiter.RateExceeded
                                          (RateLimiter.retry_after_secs rl oldest now)))
                 (skipn n ts)
     /\ Forall (fun now => 0 < oldest + RateLimiter.window rl - now)%Z (skipn n ts))
  /\ (forall now, exists rl',
        RateLimiter.is_allowed rl c now = (rl', Ok (true, RateLimiter.RateOK)))
  /\ (forall rl0 c0 now rl' s,
        RateLimiter.is_allowed rl0 c0 now = (rl', Ok (false, RateLimiter.RateExceeded s)) ->
        exists oldest,
          RateLimiter.py_min
            (List.filter (fun req_time => now - req_time <? RateLimiter.window rl0)%Z
                         (RateLimiter.stamps rl0 c0)) = Ok oldest
          /\ s = RateLimiter.retry_after_secs rl0 oldest now
          /\ (0 < oldest + RateLimiter.window rl0 - now)%Z
          /\ (0 <= s)%Z).
Proof.
  intros Hst Hpos Hwin Hlen n.
  split; [|split].
  - destruct (py_min_nonempty (firstn n ts)) as [oldest Hm].
    { intros E. apply (f_equal (@length Z)) in E. rewrite length_firstn in E.
      simpl in E. unfold n in E. lia. }
    exists oldest. split; [exact Hm|]. split; [rewrite length_firstn; lia|].
    pose proof (run_checks_in_window a ts rl c [] Hst Hwin
                  ltac:(simpl; lia) Hpos) as Hrun.
    simpl in Hrun. rewrite Nat.sub_0_r in Hrun. fold n in Hrun. rewrite Hrun.
    unfold deny_with. rewrite Hm. split; [reflexivity|].
    destruct (py_min_spec _ _ Hm) as [Hin _].
    apply List.Forall_forall. intros now Hnow.
    rewrite List.Forall_forall in Hwin.
    pose proof (Hwin now (in_skipn_in _ _ _ Hnow)) as Hn.
    pose proof (Hwin oldest (in_firstn_in _ _ _ Hin)) as Ho.
    unfold in_window in *. lia.
  - intros now. unfold RateLimiter.is_allowed. rewrite Hst. simpl.
    replace (RateLimiter.max_requests rl <=? Z.of_nat 0)%Z with false
      by (symmetry; apply Z.leb_gt; lia).
    eexists. reflexivity.
  - intros rl0 c0 now rl' s H. exact (is_allowed_denial _ _ _ _ _ H).
Qed.

Lemma rate_limiter_window_witness :
  let n := Z.to_nat (RateLimiter.max_requests RateLimiter.rate_limiter) in
  (exists oldest,
     RateLimiter.py_min (firstn n eleven_checks) = Ok oldest
     /\ length (firstn n eleven_checks) = n
     /\ snd (RateLimiter.run_checks RateLimiter.rate_limiter "10.0.0.1" eleven_checks)
        = map (fun _ => Ok (true, RateLimiter.RateOK)) (firstn n eleven_checks)
          ++ map (fun now => Ok (false, RateLimiter.RateExceeded
                                          (RateLimiter.retry_after_secs RateLimiter.rate_limiter oldest now)))
                 (skipn n eleven_checks)
     /\ Forall (fun now => 0 < oldest + RateLimiter.window RateLimiter.rate_limiter - now)%Z
               (skipn n eleven_checks))
  /\ (forall now, exists rl',
        RateLimiter.is_allowed RateLimiter.rate_limiter "10.0.0.1" now = (rl', Ok (true, RateLimiter.RateOK)))
  /\ (forall rl0 c0 now rl' s,
        RateLimiter.is_allowed rl0 c0 now = (rl', Ok (false, RateLimiter.RateExceeded s)) ->
        exists oldest,
          RateLimiter.py_min
            (List.filter (fun req_time => now - req_time <? RateLimiter.window rl0)%Z
                         (RateLimiter.stamps rl0 c0)) = Ok oldest
          /\ s = RateLimiter.retry_after_secs rl0 oldest now
          /\ (0 < oldest + RateLimiter.window rl0 - now)%Z
          /\ (0 <= s)%Z).
Proof.
  refine (rate_limiter_window RateLimiter.rate_limiter "10.0.0.1" 0 eleven_checks _ _ _ _).
  - reflexivity.
  - vm_compute. reflexivity.
  - change (RateLimiter.window RateLimiter.rate_limiter) with 60000000%Z.
    unfold eleven_checks, in_window.
    repeat apply List.Forall_cons; try apply List.Forall_nil; cbv beta; lia.
  - vm_compute. lia.
Defined.

(** C6 as stated fails: the reported [retry_after_seconds] is the time
    until the oldest instant leaves the window truncated to whole seconds,
    not that time.  Capacity 1, window one minute, checks at 0 s and 0.5 s:
    the second is denied with 59 s reported while 59.5 s remain. *)
Lemma retry_after_truncated :
  snd (RateLimiter.run_checks (RateLimiter.init 1 1) "10.0.0.1" [0; 500000]%Z)
  = [Ok (true, RateLimiter.RateOK); Ok (false, RateLimiter.RateExceeded 59)]
  /\ (0 + RateLimiter.window (RateLimiter.init 1 1) - 500000 = 59500000)%Z
  /\ (59 * RateLimiter.us_per_second <> 59500000)%Z.
Proof. vm_compute. split; [reflexivity|]. split; [reflexivity|]. discriminate. Qed.

(** C9: with a capacity of at least one, [is_allowed] never raises, for
    any client and any prior state of the window map: in the denial
    branch the retained list, on which [min] is taken, is non-empty. *)
Theorem is_allowed_total (rl : RateLimiter.t) (c : string) (now : Z) :
  (0 < RateLimiter.max_requests rl)%Z ->
  (exists rl' allowed msg,
     RateLimiter.is_allowed rl c now = (rl', Ok (allowed, msg)))
  /\ (let kept := List.filter (fun req_time => now - req_time <? RateLimiter.window rl)%Z
                              (RateLimiter.stamps rl c) in
      (RateLimiter.max_requests rl <= Z.of_nat (length kept))%Z -> kept <> []).
Proof.
  intros Hpos. split.
  - destruct (is_allowed_ok rl c now Hpos) as (rl' & [allowed msg] & H). eauto.
  - cbv zeta. intros Hle E. rewrite E in Hle. simpl in Hle. lia.
Qed.

Lemma is_allowed_total_witness :
  (exists rl' allowed msg,
     RateLimiter.is_allowed RateLimiter.rate_limiter "10.0.0.1" 0 = (rl', Ok (allowed, msg)))
  /\ (let kept := List.filter (fun req_time => 0 - req_time <? RateLimiter.window
                                                                 RateLimiter.rate_limiter)%Z
                              (RateLimiter.stamps RateLimiter.rate_limiter "10.0.0.1") in
      (RateLimiter.max_requests RateLimiter.rate_limiter <= Z.of_nat (length kept))%Z ->
      kept <> []).
Proof. apply is_allowed_total. vm_compute. reflexivity. Defined.

(* ================================================================== *)
(** ** Validator proofs *)

(** stdpp makes [String.append] opaque to [simpl]; unfold it where it can
    compute. *)
Local Arguments String.append : simpl nomatch.

Lemma is_space_lower_char (c : ascii) :
  PyStr.is_space (PyStr.lower_char c) = PyStr.is_space c.
Proof. destruct c as [[] [] [] [] [] [] [] []]; reflexivity. Qed.

Lemma is_alnum_lower_char (c : ascii) :
  PyStr.is_alnum (PyStr.lower_char c) = PyStr.is_alnum c.
Proof. destruct c as [[] [] [] [] [] [] [] []]; reflexivity. Qed.

Lemma str_length_app (a b : string) :
  String.length (a ++ b)%string = (String.length a + String.length b)%nat.
Proof. induction a as [|c a IH]; simpl; congruence. Qed.

Lemma alnum_count_app (a b : string) :
  PyStr.alnum_count (a ++ b)%string = (PyStr.alnum_count a + PyStr.alnum_count b)%nat.
Proof. induction a as [|c a IH]; cbn [String.append PyStr.alnum_count]; lia. Qed.

Lemma lower_length (s : string) : String.length (PyStr.lower s) = String.length s.
Proof. induction s as [|c r IH]; simpl; congruence. Qed.

Lemma alnum_count_lower (s : string) :
  PyStr.alnum_count (PyStr.lower s) = PyStr.alnum_count s.
Proof.
  induction s as [|c r IH]; [reflexivity|].
  cbn [PyStr.lower PyStr.alnum_count]. rewrite is_alnum_lower_char, IH. reflexivity.
Qed.

Lemma lower_lstrip (s : string) :
  PyStr.lower (PyStr.lstrip s) = PyStr.lstrip (PyStr.lower s).
Proof.
  induction s as [|c r IH]; [reflexivity|].
  cbn [PyStr.lower PyStr.lstrip]. rewrite is_space_lower_char.
  destruct (PyStr.is_space c); [exact IH|reflexivity].
Qed.

Lemma lower_rstrip (s : string) :
  PyStr.lower (PyStr.rstrip s) = PyStr.rstrip (PyStr.lower s).
Proof.
  induction s as [|c r IH]; [reflexivity|].
  cbn [PyStr.lower PyStr.rstrip]. rewrite <- IH.
  destruct (PyStr.rstrip r) as [|c' r']; cbn [PyStr.lower].
  - rewrite is_space_lower_char. destruct (PyStr.is_space c); reflexivity.
  - reflexivity.
Qed.

Lemma lower_strip (s : string) :
  PyStr.lower (PyStr.strip s) = PyStr.strip (PyStr.lower s).
Proof. unfold PyStr.strip. rewrite lower_rstrip, lower_lstrip. reflexivity. Qed.

Lemma prefix_app (m b : string) : String.prefix m (m ++ b)%string = true.
Proof.
  induction m as [|c m IH]; [destruct b; reflexivity|]. simpl.
  destruct (ascii_dec c c); [exact IH|congruence].
Qed.

Lemma prefix_inv (m s : string) :
  String.prefix m s = true -> exists b, s = (m ++ b)%string.
Proof.
  revert s; induction m as [|c m IH]; intros [|c' s] H; simpl in H.
  - exists EmptyString. reflexivity.
  - exists (String c' s). reflexivity.
  - discriminate.
  - destruct (ascii_dec c c'); [subst c'|discriminate].
    destruct (IH s H) as [b ->]. exists b. reflexivity.
Qed.

Lemma contains_prefix (m s : string) :
  String.prefix m s = true -> PyStr.contains m s = true.
Proof. intros H. destruct s; cbn [PyStr.contains]; rewrite H; reflexivity. Qed.

Lemma contains_inv (m s : string) :
  PyStr.contains m s = true -> exists a b, s = (a ++ m ++ b)%string.
Proof.
  induction s as [|c r IH]; intros H; cbn [PyStr.contains] in H;
    apply orb_true_iff in H as [H|H].
  - destruct (prefix_inv _ _ H) as [b Hb]. exists EmptyString, b. exact Hb.
  - discriminate.
  - destruct (prefix_inv _ _ H) as [b Hb]. exists EmptyString, b. exact Hb.
  - destruct (IH H) as (a & b & ->). exists (String c a), b. reflexivity.
Qed.

Lemma contains_app (m a b : string) : PyStr.contains m (a ++ m ++ b)%string = true.
Proof.
  induction a as [|c a IH].
  - exact (contains_prefix _ _ (prefix_app m b)).
  - cbn [String.append PyStr.contains]. rewrite IH, orb_true_r. reflexivity.
Qed.

Lemma lstrip_app_nonspace (a m b : string) (c0 : ascii) (m0 : string) :
  m = String c0 m0 -> PyStr.is_space c0 = false ->
  exists a', PyStr.lstrip (a ++ m ++ b)%string = (a' ++ m ++ b)%string.
Proof.
  intros -> Hc. induction a as [|c a IH].
  - exists EmptyString. cbn [String.append PyStr.lstrip]. rewrite Hc. reflexivity.
  - cbn [String.append PyStr.lstrip]. destruct (PyStr.is_space c).
    + exact IH.
    + exists (String c a). reflexivity.
Qed.

Lemma rstrip_nonempty_cons (c : ascii) (r : string) :
  PyStr.rstrip r <> EmptyString -> PyStr.rstrip (String c r) = String c (PyStr.rstrip r).
Proof. intros H. cbn [PyStr.rstrip]. destruct (PyStr.rstrip r); [congruence|reflexivity]. Qed.

Lemma rstrip_cons_nonspace (c : ascii) (r : string) :
  PyStr.is_space c = false -> PyStr.rstrip (String c r) = String c (PyStr.rstrip r).
Proof. intros H. cbn [PyStr.rstrip]. destruct (PyStr.rstrip r); [rewrite H|]; reflexivity. Qed.

Lemma rstrip_app_l (a y : string) :
  PyStr.rstrip y <> EmptyString -> PyStr.rstrip (a ++ y)%string = (a ++ PyStr.rstrip y)%string.
Proof.
  intros H. induction a as [|c a IH]; [reflexivity|]. cbn [String.append].
  rewrite rstrip_nonempty_cons.
  - rewrite IH. reflexivity.
  - rewrite IH. destruct a; cbn [String.append]; [exact H|discriminate].
Qed.

(** Every pattern of the deny-list starts with a non-space character,
    has no space at all, is at least five characters long and has at
    least three alphanumeric characters. *)
Lemma patterns_shape (m : string) : In m suspicious_patterns ->
  (exists c0 m0, m = String c0 m0 /\ PyStr.is_space c0 = false)
  /\ (forall b, PyStr.rstrip (m ++ b)%string = (m ++ PyStr.rstrip b)%string)
  /\ (5 <= String.length m)%nat /\ (3 <= PyStr.alnum_count m)%nat.
Proof.
  intros Hm. simpl in Hm.
  repeat destruct Hm as [<-|Hm]; try contradiction;
    (split; [eexists _, _; split; reflexivity|]);
    (split; [intros b; cbn [String.append];
             repeat (rewrite rstrip_cons_nonspace by reflexivity); reflexivity|]);
    split; vm_compute; lia.
Qed.

Lemma rstrip_idem (s : string) : PyStr.rstrip (PyStr.rstrip s) = PyStr.rstrip s.
Proof.
  induction s as [|c r IH]; [reflexivity|].
  cbn [PyStr.rstrip]. destruct (PyStr.rstrip r) as [|c' r'] eqn:E.
  - destruct (PyStr.is_space c) eqn:Ec; [reflexivity|].
    cbn [PyStr.rstrip]. rewrite Ec. reflexivity.
  - rewrite rstrip_nonempty_cons; rewrite IH; [reflexivity|discriminate].
Qed.

Lemma lstrip_first_nonspace (s : string) :
  match PyStr.lstrip s with
  | EmptyString => True
  | String c _ => PyStr.is_space c = false
  end.
Proof.
  induction s as [|c r IH]; [exact I|]. cbn [PyStr.lstrip].
  destruct (PyStr.is_space c) eqn:Ec; [exact IH|exact Ec].
Qed.

Lemma rstrip_first (s : string) :
  PyStr.rstrip s = EmptyString
  \/ exists c r r', s = String c r /\ PyStr.rstrip s = String c r'.
Proof.
  destruct s as [|c r]; [left; reflexivity|]. cbn [PyStr.rstrip].
  destruct (PyStr.rstrip r).
  - destruct (PyStr.is_space c); [left; reflexivity|].
    right. do 3 eexists. split; reflexivity.
  - right. do 3 eexists. split; reflexivity.
Qed.

Lemma strip_idem (s : string) : PyStr.strip (PyStr.strip s) = PyStr.strip s.
Proof.
  unfold PyStr.strip.
  assert (H : PyStr.lstrip (PyStr.rstrip (PyStr.lstrip s)) = PyStr.rstrip (PyStr.lstrip s)).
  { pose proof (lstrip_first_nonspace s) as Hf.
    destruct (rstrip_first (PyStr.lstrip s)) as [E|(c & r & r' & E1 & E2)].
    - rewrite E. reflexivity.
    - rewrite E2. rewrite E1 in Hf. cbn [PyStr.lstrip]. rewrite Hf. reflexivity. }
  rewrite H, rstrip_idem. reflexivity.
Qed.

(** C7 (amended): a question whose lower-cased text contains one of the
    deny-listed patterns is refused as suspicious when its trimmed text is
    at most 1000 characters long (the other checks cannot fire first,
    since the pattern survives trimming and already has five characters,
    three of them alphanumeric), and is refused as too long otherwise. *)
Theorem validate_question_suspicious (q m : string) :
  In m suspicious_patterns ->
  PyStr.contains m (PyStr.lower q) = true ->
  ((String.length (PyStr.strip q) <= 1000)%nat ->
   validate_question (PyStr q) = (false, EmptyString, msg_suspicious))
  /\ ((1000 < String.length (PyStr.strip q))%nat ->
      validate_question (PyStr q) = (false, EmptyString, msg_too_long)).
Proof.
  intros Hm Hc.
  destruct (patterns_shape m Hm) as ((c0 & m0 & Em & Hc0) & Hr & Hl5 & Ha3).
  destruct (contains_inv _ _ Hc) as (a & b & Hq).
  destruct (lstrip_app_nonspace a m b c0 m0 Em Hc0) as (a' & Ha').
  assert (Hs : PyStr.lower (PyStr.strip q) = (a' ++ m ++ PyStr.rstrip b)%string).
  { rewrite lower_strip. unfold PyStr.strip. rewrite Hq, Ha'.
    rewrite rstrip_app_l by (rewrite Hr; subst m; discriminate).
    rewrite Hr. reflexivity. }
  assert (Hl : (5 <= String.length (PyStr.strip q))%nat).
  { rewrite <- lower_length, Hs, !str_length_app. lia. }
  assert (Ha : (3 <= PyStr.alnum_count (PyStr.strip q))%nat).
  { rewrite <- alnum_count_lower, Hs, !alnum_count_app. lia. }
  assert (Hex : existsb (fun pattern => PyStr.contains pattern (PyStr.lower (PyStr.strip q)))
                        suspicious_patterns = true).
  { apply existsb_exists. exists m. split; [exact Hm|]. rewrite Hs. apply contains_app. }
  assert (Hne : String.eqb q EmptyString = false).
  { destruct q; [simpl in Hl; lia|reflexivity]. }
  unfold validate_question. cbn [py_falsy]. rewrite Hne. cbv beta iota zeta.
  destruct (Nat.ltb_spec (String.length (PyStr.strip q)) 5); [lia|].
  destruct (Nat.ltb_spec 1000 (String.length (PyStr.strip q)));
    [split; [intros; lia|reflexivity]|].
  split; [intros _|intros; lia].
  destruct (Nat.ltb_spec (PyStr.alnum_count (PyStr.strip q)) 3); [lia|].
  rewrite Hex. reflexivity.
Qed.

Lemma validate_question_suspicious_witness :
  (In "<script"%string suspicious_patterns
   /\ PyStr.contains "<script" (PyStr.lower "x <SCRIPT>alert(1)</script>") = true
   /\ validate_question (PyStr "x <SCRIPT>alert(1)</script>")
      = (false, EmptyString, msg_suspicious))
  /\ (In "<script"%string suspicious_patterns
      /\ PyStr.contains "<script" (PyStr.lower long_script_question) = true
      /\ validate_question (PyStr long_script_question)
         = (false, EmptyString, msg_too_long)).
Proof.
  assert (Hm : In "<script"%string suspicious_patterns) by (left; reflexivity).
  assert (H1 : PyStr.contains "<script" (PyStr.lower "x <SCRIPT>alert(1)</script>") = true)
    by reflexivity.
  assert (H2 : PyStr.contains "<script" (PyStr.lower long_script_question) = true)
    by (vm_compute; reflexivity).
  split; (split; [exact Hm|]).
  - split; [exact H1|].
    apply (proj1 (validate_question_suspicious _ "<script" Hm H1)). vm_compute. lia.
  - split; [exact H2|].
    apply (proj2 (validate_question_suspicious _ "<script" Hm H2)). vm_compute. lia.
Defined.

(** C7 as stated fails: the length checks run before the pattern check,
    so a deny-listed pattern followed by 1000 more characters is refused
    as too long, not as suspicious; and the only event-handler attribute
    of the deny-list is [onerror=], so a question carrying [onload=] is
    accepted. *)
Lemma suspicious_pattern_masked :
  (PyStr.contains "<script" (PyStr.lower long_script_question) = true
   /\ validate_question (PyStr long_script_question) = (false, EmptyString, msg_too_long))
  /\ validate_question (PyStr "Imagem <img src=x onload=alert(1)>")
     = (true, "Imagem <img src=x onload=alert(1)>", EmptyString).
Proof. split; [split|]; vm_compute; reflexivity. Qed.

(** C10: validation is idempotent on its output: a sanitized question
    that was accepted is accepted again, unchanged. *)
Theorem validate_question_idempotent (q s err : string) :
  validate_question (PyStr q) = (true, s, err) ->
  validate_question (PyStr s) = (true, s, EmptyString).
Proof.
  unfold validate_question at 1. cbn [py_falsy]. cbv beta iota zeta.
  destruct (String.eqb q EmptyString); [discriminate|].
  destruct (String.length (PyStr.strip q) <? 5)%nat eqn:E1; [discriminate|].
  destruct (1000 <? String.length (PyStr.strip q))%nat eqn:E2; [discriminate|].
  destruct (PyStr.alnum_count (PyStr.strip q) <? 3)%nat eqn:E3; [discriminate|].
  destruct (existsb (fun pattern => PyStr.contains pattern (PyStr.lower (PyStr.strip q)))
                    suspicious_patterns) eqn:E4; [discriminate|].
  intros H. injection H as <- _.
  unfold validate_question. cbn [py_falsy]. cbv beta iota zeta.
  rewrite strip_idem, E1, E2, E3, E4.
  apply Nat.ltb_ge in E1.
  destruct (PyStr.strip q); [simpl in E1; lia|reflexivity].
Qed.

Lemma validate_question_idempotent_witness :
  validate_question (PyStr "  Qual a politica de senhas?  ")
  = (true, "Qual a politica de senhas?"%string, EmptyString)
  /\ validate_question (PyStr "Qual a politica de senhas?")
     = (true, "Qual a politica de senhas?"%string, EmptyString).
Proof.
  split; [reflexivity|].
  apply (validate_question_idempotent "  Qual a politica de senhas?  " _ EmptyString).
  reflexivity.
Defined.

(* ================================================================== *)
(** ** The 429 body *)

Example split_ws_example :
  split_ws "  Tente novamente  em 59s " = ["Tente"; "novamente"; "em"; "59s"]%string.
Proof. reflexivity. Qed.

Example py_int_example :
  py_int " -1_000 " = Some (-1000)%Z /\ py_int "1__0" = None /\ py_int "_1" = None
  /\ py_int "+7" = Some 7%Z /\ py_int "" = None.
Proof. repeat split. Qed.

Lemma str_app_assoc (a b c : string) : ((a ++ b) ++ c)%string = (a ++ b ++ c)%string.
Proof. induction a as [|x a IH]; simpl; [reflexivity|]. rewrite IH. reflexivity. Qed.

Lemma str_app_nil_r (a : string) : (a ++ EmptyString)%string = a.
Proof. induction a as [|x a IH]; simpl; [reflexivity|]. rewrite IH. reflexivity. Qed.

Lemma str_forall_app (p : ascii -> bool) (a b : string) :
  str_forall p (a ++ b)%string = str_forall p a && str_forall p b.
Proof. induction a as [|x a IH]; simpl; [reflexivity|]. rewrite IH. apply andb_assoc. Qed.

Lemma digit_char_props (c : ascii) : is_digit c = true ->
  PyStr.is_space c = false /\ Ascii.eqb c "s" = false /\ Ascii.eqb c "-" = false
  /\ Ascii.eqb c "+" = false.
Proof.
  destruct c as [[] [] [] [] [] [] [] []]; vm_compute;
    intros H; try discriminate H; repeat split.
Qed.

Lemma pretty_N_char_digit (m : N) : (m < 10)%N ->
  is_digit (pretty_N_char m) = true /\ digit_val (pretty_N_char m) = Z.of_N m.
Proof.
  intros Hm.
  assert (m = 0 \/ m = 1 \/ m = 2 \/ m = 3 \/ m = 4 \/ m = 5 \/ m = 6 \/ m = 7
          \/ m = 8 \/ m = 9)%N as Hc by lia.
  repeat destruct Hc as [->|Hc]; try (subst m); split; reflexivity.
Qed.

Lemma pretty_N_go_digits (x : N) : (0 < x)%N -> forall s, exists d,
  pretty_N_go x s = (d ++ s)%string /\ d <> EmptyString /\ str_forall is_digit d = true
  /\ exists f : Z -> Z, f 0%Z = Z.of_N x /\
     forall acc b r, digits_value (d ++ r)%string acc b = digits_value r (f acc) true.
Proof.
  induction x as [x IH] using (well_founded_induction N.lt_wf_0).
  intros Hx s. rewrite pretty_N_go_step by exact Hx.
  destruct (pretty_N_char_digit (x mod 10)%N) as [Hdig Hval]; [apply N.mod_lt; lia|].
  pose proof (N.div_mod x 10 ltac:(lia)) as Hdm.
  destruct (N.eq_dec (x / 10)%N 0%N) as [E|E].
  - rewrite E, pretty_N_go_0.
    exists (String (pretty_N_char (x mod 10)%N) EmptyString).
    split; [reflexivity|]. split; [discriminate|].
    split; [simpl; rewrite Hdig; reflexivity|].
    exists (fun acc => 10 * acc + Z.of_N (x mod 10)%N)%Z. split.
    + rewrite E in Hdm. lia.
    + intros acc b r. simpl. rewrite Hdig, Hval. reflexivity.
  - assert (Hlt : (x / 10 < x)%N) by (apply N.div_lt; lia).
    assert (Hp : (0 < x / 10)%N) by (revert E; generalize (x / 10)%N; intros; lia).
    destruct (IH (x / 10)%N Hlt Hp
                (String (pretty_N_char (x mod 10)%N) s))
      as (d & Hd & Hne & Hall & f & Hf0 & Hf).
    exists (d ++ String (pretty_N_char (x mod 10)%N) EmptyString)%string.
    split; [rewrite Hd, str_app_assoc; reflexivity|].
    split; [destruct d; [congruence|discriminate]|].
    split; [rewrite str_forall_app, Hall; simpl; rewrite Hdig; reflexivity|].
    exists (fun acc => 10 * f acc + Z.of_N (x mod 10)%N)%Z. split.
    + rewrite Hf0. lia.
    + intros acc b r. rewrite str_app_assoc, Hf. simpl. rewrite Hdig, Hval. reflexivity.
Qed.

(** [str] of an [int]: digits, with a [-] in front when negative. *)
Lemma pretty_Z_shape (n : Z) : exists d v,
  str_forall is_digit d = true /\ d <> EmptyString /\ digits_value d 0 false = Some v
  /\ ((0 <= n /\ pretty n = d /\ v = n)%Z \/ (n < 0 /\ pretty n = String "-" d /\ v = - n)%Z).
Proof.
  assert (Hpos : forall p, exists d, pretty (N.pos p) = d /\ str_forall is_digit d = true
                   /\ d <> EmptyString /\ digits_value d 0 false = Some (Z.pos p)).
  { intros p. unfold pretty, pretty_N.
    destruct (decide (N.pos p = 0%N)) as [E|_]; [discriminate E|].
    destruct (pretty_N_go_digits (N.pos p) ltac:(lia) EmptyString)
      as (d & Hd & Hne & Hall & f & Hf0 & Hf).
    exists d. rewrite Hd, str_app_nil_r. split; [reflexivity|].
    split; [exact Hall|]. split; [exact Hne|].
    rewrite <- (str_app_nil_r d), Hf, Hf0. destruct d; [congruence|reflexivity]. }
  destruct n as [|p|p].
  - exists "0"%string, 0%Z. repeat split; try discriminate. left. repeat split; lia.
  - destruct (Hpos p) as (d & Hd & Hall & Hne & Hv). exists d, (Z.pos p).
    repeat split; try assumption. left. split; [lia|]. split; [exact Hd|reflexivity].
  - destruct (Hpos p) as (d & Hd & Hall & Hne & Hv). exists d, (Z.pos p).
    repeat split; try assumption. right. split; [lia|]. split; [|reflexivity].
    exact (f_equal (String "-") Hd).
Qed.

Lemma split_ws_cons (c : ascii) (r : string) :
  split_ws (String c r) =
  if PyStr.is_space c then split_ws r
  else match r with
       | EmptyString => [String c EmptyString]
       | String c' _ =>
           if PyStr.is_space c' then String c EmptyString :: split_ws r
           else match split_ws r with
                | w :: ws => String c w :: ws
                | [] => [String c EmptyString]
                end
       end.
Proof. reflexivity. Qed.

Lemma split_ws_nonempty (c : ascii) (r : string) :
  PyStr.is_space c = false -> exists w ws, split_ws (String c r) = w :: ws.
Proof.
  intros Hc. rewrite split_ws_cons, Hc. destruct r as [|c' r']; [eauto|].
  destruct (PyStr.is_space c'); [eauto|]. destruct (split_ws (String c' r')); eauto.
Qed.

Lemma split_ws_app_space (x y : string) (sp : ascii) :
  PyStr.is_space sp = true ->
  split_ws (x ++ String sp y)%string = split_ws x ++ split_ws y.
Proof.
  intros Hsp. induction x as [|c x IH].
  - change (EmptyString ++ String sp y)%string with (String sp y).
    rewrite split_ws_cons, Hsp. reflexivity.
  - change (String c x ++ String sp y)%string with (String c (x ++ String sp y))%string.
    rewrite (split_ws_cons c (x ++ String sp y)), (split_ws_cons c x).
    destruct (PyStr.is_space c) eqn:Hc; [exact IH|].
    destruct x as [|c' x'].
    + cbn -[split_ws PyStr.is_space]. rewrite Hsp, (split_ws_cons sp y), Hsp. reflexivity.
    + cbn -[split_ws PyStr.is_space] in IH |- *.
      destruct (PyStr.is_space c') eqn:Hc'; [rewrite IH; reflexivity|].
      rewrite IH. destruct (split_ws_nonempty c' x' Hc') as (w & ws & ->). reflexivity.
Qed.

Lemma split_ws_word (w : string) :
  w <> EmptyString -> str_forall (fun c => negb (PyStr.is_space c)) w = true ->
  split_ws w = [w].
Proof.
  induction w as [|c w IH]; intros Hne Hall; [congruence|].
  simpl in Hall. apply andb_true_iff in Hall as [Hc Hall]. apply negb_true_iff in Hc.
  rewrite split_ws_cons, Hc. destruct w as [|c' w']; [reflexivity|].
  simpl in Hall. destruct (PyStr.is_space c') eqn:Hc'; [discriminate Hall|].
  rewrite IH; [reflexivity|discriminate|]. simpl. rewrite Hc'. exact Hall.
Qed.

Lemma py_last_app (A : Type) (l : list A) (x : A) : py_last (l ++ [x]) = Some x.
Proof.
  induction l as [|y l IH]; [reflexivity|]. simpl. rewrite IH.
  destruct l; reflexivity.
Qed.

Lemma digits_nonspace (d : string) :
  str_forall is_digit d = true -> str_forall (fun c => negb (PyStr.is_space c)) d = true.
Proof.
  induction d as [|c d IH]; simpl; [reflexivity|]. intros H.
  apply andb_true_iff in H as [Hc Hd].
  destruct (digit_char_props c Hc) as (-> & _). simpl. apply IH, Hd.
Qed.

Lemma remove_s_digits (d : string) :
  str_forall is_digit d = true -> remove_char "s" d = d.
Proof.
  induction d as [|c d IH]; simpl; [reflexivity|]. intros H.
  apply andb_true_iff in H as [Hc Hd].
  destruct (digit_char_props c Hc) as (_ & -> & _). rewrite IH; [reflexivity|exact Hd].
Qed.

Lemma remove_char_app (c : ascii) (a b : string) :
  remove_char c (a ++ b)%string = (remove_char c a ++ remove_char c b)%string.
Proof.
  induction a as [|x a IH]; simpl; [reflexivity|]. rewrite IH.
  destruct (Ascii.eqb x c); reflexivity.
Qed.

Lemma lstrip_nonspace (s : string) :
  str_forall (fun c => negb (PyStr.is_space c)) s = true -> PyStr.lstrip s = s.
Proof.
  destruct s as [|c r]; [reflexivity|]. simpl. intros H.
  apply andb_true_iff in H as [Hc _]. apply negb_true_iff in Hc. rewrite Hc. reflexivity.
Qed.

Lemma rstrip_nonspace (s : string) :
  str_forall (fun c => negb (PyStr.is_space c)) s = true -> PyStr.rstrip s = s.
Proof.
  induction s as [|c r IH]; [reflexivity|]. simpl str_forall. intros H.
  apply andb_true_iff in H as [Hc Hr]. apply negb_true_iff in Hc.
  rewrite rstrip_cons_nonspace by exact Hc. rewrite IH by exact Hr. reflexivity.
Qed.

Lemma py_int_pretty (n : Z) : py_int (pretty n) = Some n.
Proof.
  destruct (pretty_Z_shape n) as (d & v & Hall & Hne & Hv & H).
  assert (Hns : str_forall (fun c => negb (PyStr.is_space c)) (pretty n) = true).
  { destruct H as [(_ & -> & _)|(_ & -> & _)]; [apply digits_nonspace, Hall|].
    simpl. apply digits_nonspace, Hall. }
  unfold py_int. unfold PyStr.strip.
  rewrite lstrip_nonspace by exact Hns. rewrite rstrip_nonspace by exact Hns.
  destruct H as [(_ & -> & ->)|(_ & -> & ->)].
  - destruct d as [|c d']; [congruence|].
    simpl in Hall. apply andb_true_iff in Hall as [Hc _].
    destruct (digit_char_props c Hc) as (_ & _ & -> & ->). exact Hv.
  - simpl. rewrite Hv. simpl. f_equal. lia.
Qed.

Lemma pretty_Z_chars (n : Z) :
  str_forall (fun c => negb (PyStr.is_space c)) (pretty n) = true
  /\ remove_char "s" (pretty n) = pretty n /\ pretty n <> EmptyString.
Proof.
  destruct (pretty_Z_shape n) as (d & v & Hall & Hne & Hv & [(_ & -> & _)|(_ & -> & _)]).
  - split; [apply digits_nonspace, Hall|]. split; [apply remove_s_digits, Hall|exact Hne].
  - split; [simpl; apply digits_nonspace, Hall|].
    split; [simpl; rewrite remove_s_digits by exact Hall; reflexivity|discriminate].
Qed.

(** X1: the [retry_after_seconds] field of a 429 body, which the endpoint
    parses back out of the limiter's message, is the number of seconds
    that message reports: the parse never raises and returns that very
    integer, whatever its value. *)
Theorem retry_after_of_rate_message (s : Z) :
  retry_after_of_message (rate_message s) = Some s.
Proof.
  destruct (pretty_Z_chars s) as (Hns & Hrm & Hne).
  assert (E : rate_message s
              = ("Rate limit excedido. Tente novamente em"
                 ++ String " " (pretty s ++ "s"))%string) by reflexivity.
  unfold retry_after_of_message. rewrite E.
  rewrite split_ws_app_space by reflexivity.
  rewrite (split_ws_word (pretty s ++ "s")%string).
  - rewrite py_last_app, remove_char_app, Hrm. simpl remove_char.
    rewrite str_app_nil_r. apply py_int_pretty.
  - destruct (pretty s); [congruence|discriminate].
  - rewrite str_forall_app, Hns. reflexivity.
Qed.

(* ================================================================== *)
(** ** More on the rate limiter *)

Section RateLimiterRuns.
Import RateLimiter.
Local Open Scope Z_scope.

Lemma set_stamps_max (rl : t) (c : string) (l : list Z) :
  max_requests (set_stamps rl c l) = max_requests rl.
Proof. reflexivity. Qed.

Lemma set_stamps_window (rl : t) (c : string) (l : list Z) :
  window (set_stamps rl c l) = window rl.
Proof. reflexivity. Qed.

Lemma stamps_set_stamps_ne (rl : t) (c c' : string) (l : list Z) :
  c' <> c -> stamps (set_stamps rl c l) c' = stamps rl c'.
Proof. intros H. unfold stamps, set_stamps. simpl. rewrite lookup_insert_ne by congruence. reflexivity. Qed.

(** The state after a check: only the checked client's list changes; it
    becomes the retained instants, followed by [now] when admitted. *)
Lemma is_allowed_state (rl : t) (c : string) (now : Z) :
  let kept := List.filter (fun req_time => now - req_time <? window rl) (stamps rl c) in
  exists l, fst (is_allowed rl c now) = set_stamps rl c l
    /\ ((l = kept /\ max_requests rl <= Z.of_nat (length kept)
         /\ exists r, snd (is_allowed rl c now) = r /\ forall m, r <> Ok (true, m))
        \/ (l = kept ++ [now] /\ Z.of_nat (length kept) < max_requests rl
            /\ snd (is_allowed rl c now) = Ok (true, RateOK))).
Proof.
  intros kept. unfold is_allowed. fold kept.
  destruct (max_requests rl <=? Z.of_nat (length kept)) eqn:Hle.
  - apply Z.leb_le in Hle. exists kept.
    split; [destruct (py_min kept); reflexivity|]. left.
    split; [reflexivity|]. split; [exact Hle|].
    eexists. split; [reflexivity|]. destruct (py_min kept); simpl; intros m; discriminate.
  - apply Z.leb_gt in Hle. exists (kept ++ [now]). split; [reflexivity|]. right. auto.
Qed.

(** The list that [min] is taken on when the window is full: the
    retained instants are the stored ones younger than the window. *)
Lemma filter_filter_later (w now now' : Z) (l : list Z) :
  now <= now' ->
  List.filter (fun t => now' - t <? w) (List.filter (fun t => now - t <? w) l)
  = List.filter (fun t => now' - t <? w) l.
Proof.
  intros Hle. induction l as [|x l IH]; simpl; [reflexivity|].
  destruct (now - x <? w) eqn:E1; simpl; rewrite IH; [reflexivity|].
  destruct (now' - x <? w) eqn:E2; [|reflexivity].
  apply Z.ltb_ge in E1. apply Z.ltb_lt in E2. lia.
Qed.

Lemma filter_length_mono (p q : Z -> bool) (l : list Z) :
  (forall x, In x l -> p x = true -> q x = true) ->
  (length (List.filter p l) <= length (List.filter q l))%nat.
Proof.
  induction l as [|x l IH]; intros H; simpl; [lia|].
  destruct (p x) eqn:Hp.
  - rewrite (H x (or_introl eq_refl) Hp). simpl.
    apply le_n_S, IH. intros y Hy. apply H. right. exact Hy.
  - destruct (q x); simpl; [apply le_S|]; apply IH; intros y Hy; apply H; right; exact Hy.
Qed.

Lemma admitted_cons (rl : t) (c : string) (now : Z) (ts : list Z) :
  admitted rl c (now :: ts)
  = match snd (is_allowed rl c now) with
    | Ok (true, _) => [now]
    | _ => []
    end ++ admitted (fst (is_allowed rl c now)) c ts.
Proof.
  unfold admitted. rewrite run_checks_cons. simpl.
  destruct (snd (is_allowed rl c now)) as [[[] m]|e]; reflexivity.
Qed.

Lemma nondecreasing_cons (t0 : Z) (ts : list Z) :
  nondecreasing (t0 :: ts) = true ->
  nondecreasing ts = true /\ Forall (fun x => t0 <= x) ts.
Proof.
  revert t0. induction ts as [|t1 ts IH]; intros t0 H; [split; [reflexivity|constructor]|].
  simpl in H. apply andb_true_iff in H as [H01 H1]. apply Z.leb_le in H01.
  split; [exact H1|]. destruct (IH t1 H1) as [_ Hall].
  constructor; [exact H01|]. eapply List.Forall_impl; [|exact Hall]. simpl. intros; lia.
Qed.

(** The invariant of a run: for every instant from [last] on, the stored
    list and the admitted instants [A] agree on what is younger than the
    window; and no interval of length [window] holds more than
    [max_requests] admitted instants. *)
Lemma admitted_window_gen (c : string) (ts : list Z) :
  forall (rl : t) (A : list Z) (last : Z),
  (forall now, last <= now ->
     List.filter (fun t => now - t <? window rl) (stamps rl c)
     = List.filter (fun t => now - t <? window rl) A) ->
  Forall (fun t => t <= last) A ->
  (forall a, (length (in_interval a (window rl) A) <= Z.to_nat (max_requests rl))%nat) ->
  Forall (fun t => last <= t) ts -> nondecreasing ts = true ->
  forall a, (length (in_interval a (window rl) (A ++ admitted rl c ts))
             <= Z.to_nat (max_requests rl))%nat.
Proof.
  induction ts as [|now ts IH]; intros rl A last Hagree HA Hcount Hts Hnd a.
  - unfold admitted. simpl. rewrite app_nil_r. apply Hcount.
  - inversion Hts as [|? ? Hnow Hts']; subst.
    destruct (nondecreasing_cons now ts Hnd) as [Hnd' Hge].
    rewrite admitted_cons.
    destruct (is_allowed_state rl c now) as (l & Hst & Hcase).
    set (kept := List.filter (fun req_time => now - req_time <? window rl) (stamps rl c))
      in Hcase.
    assert (Hkept : kept = List.filter (fun t => now - t <? window rl) A)
      by (apply Hagree; lia).
    rewrite Hst.
    destruct Hcase as [(-> & Hfull & r & Hr & Hne)|(-> & Hroom & Hok)].
    + (* denied or raised: nothing admitted, the retained list stored *)
      replace (match snd (is_allowed rl c now) with Ok (true, _) => [now] | _ => [] end)
        with (@nil Z)
        by (rewrite Hr; destruct r as [[[] m]|]; [destruct (Hne m eq_refl)|reflexivity..]).
      simpl app.
      rewrite <- (set_stamps_window rl c kept), <- (set_stamps_max rl c kept).
      apply (IH _ A now); try assumption.
      * intros now' Hle. rewrite stamps_set_stamps, set_stamps_window.
        unfold kept. rewrite filter_filter_later by lia. apply Hagree. lia.
      * eapply List.Forall_impl; [|exact HA]. simpl. intros; lia.
    + (* admitted: [now] stored and counted *)
      rewrite Hok. rewrite app_assoc.
      rewrite <- (set_stamps_window rl c (kept ++ [now])),
              <- (set_stamps_max rl c (kept ++ [now])).
      apply (IH _ (A ++ [now]) now); try assumption.
      * intros now' Hle. rewrite stamps_set_stamps, set_stamps_window.
        rewrite !List.filter_app. f_equal.
        unfold kept. rewrite filter_filter_later by lia. apply Hagree. lia.
      * apply Forall_app. split; [|constructor; [lia|constructor]].
        eapply List.Forall_impl; [|exact HA]. simpl. intros; lia.
      * intros a'. rewrite set_stamps_window, set_stamps_max.
        unfold in_interval. rewrite List.filter_app, length_app. simpl.
        destruct ((a' <=? now) && (now <? a' + window rl)) eqn:Hin; simpl.
        -- apply andb_true_iff in Hin as [Ha1 Ha2].
           apply Z.leb_le in Ha1. apply Z.ltb_lt in Ha2.
           assert (Hsub : (length (List.filter (fun t => ((a' <=? t) && (t <? a' + window rl))%Z) A)
                           <= length kept)%nat).
           { rewrite Hkept. apply filter_length_mono. intros x Hx Hp.
             apply andb_true_iff in Hp as [Hp1 _]. apply Z.leb_le in Hp1.
             apply Z.ltb_lt. rewrite List.Forall_forall in HA. specialize (HA x Hx). lia. }
           lia.
        -- rewrite Nat.add_0_r. apply Hcount.
Qed.

End RateLimiterRuns.

Lemma filter_expired (w now : Z) (l : list Z) :
  Forall (fun t => (w <= now - t)%Z) l ->
  List.filter (fun t => (now - t <? w)%Z) l = [].
Proof.
  induction 1 as [|t l Ht _ IH]; [reflexivity|].
  simpl. destruct (now - t <? w)%Z eqn:E; [apply Z.ltb_lt in E; lia|exact IH].
Qed.

(** X2: a check by one client leaves every other client's stored instants,
    and the limiter's [max_requests] and [window], unchanged. *)
Theorem is_allowed_other_clients (rl : RateLimiter.t) (c c' : string) (now : Z) :
  c' <> c ->
  RateLimiter.stamps (fst (RateLimiter.is_allowed rl c now)) c' = RateLimiter.stamps rl c'
  /\ RateLimiter.max_requests (fst (RateLimiter.is_allowed rl c now)) = RateLimiter.max_requests rl
  /\ RateLimiter.window (fst (RateLimiter.is_allowed rl c now)) = RateLimiter.window rl.
Proof.
  intros Hne. destruct (is_allowed_state rl c now) as (l & Hst & _).
  rewrite Hst. split; [apply stamps_set_stamps_ne; exact Hne|]. split; reflexivity.
Qed.

Lemma is_allowed_other_clients_witness :
  ("10.0.0.2" <> "10.0.0.1")%string
  /\ RateLimiter.stamps (fst (RateLimiter.is_allowed
       (RateLimiter.set_stamps RateLimiter.rate_limiter "10.0.0.2" [5%Z])
       "10.0.0.1" 7%Z)) "10.0.0.2"
     = RateLimiter.stamps (RateLimiter.set_stamps RateLimiter.rate_limiter "10.0.0.2" [5%Z]) "10.0.0.2"
  /\ RateLimiter.max_requests (fst (RateLimiter.is_allowed
       (RateLimiter.set_stamps RateLimiter.rate_limiter "10.0.0.2" [5%Z]) "10.0.0.1" 7%Z))
     = RateLimiter.max_requests (RateLimiter.set_stamps RateLimiter.rate_limiter "10.0.0.2" [5%Z])
  /\ RateLimiter.window (fst (RateLimiter.is_allowed
       (RateLimiter.set_stamps RateLimiter.rate_limiter "10.0.0.2" [5%Z]) "10.0.0.1" 7%Z))
     = RateLimiter.window (RateLimiter.set_stamps RateLimiter.rate_limiter "10.0.0.2" [5%Z]).
Proof.
  split; [discriminate|].
  apply (is_allowed_other_clients
           (RateLimiter.set_stamps RateLimiter.rate_limiter "10.0.0.2" [5%Z])
           "10.0.0.1" "10.0.0.2" 7%Z).
  discriminate.
Defined.

(** X3: if no client has more than [max_requests] instants stored, this
    still holds after any check [is_allowed]. *)
Theorem is_allowed_stamps_bounded (rl : RateLimiter.t) (c : string) (now : Z) :
  (forall c', (length (RateLimiter.stamps rl c') <= Z.to_nat (RateLimiter.max_requests rl))%nat) ->
  forall c', (length (RateLimiter.stamps (fst (RateLimiter.is_allowed rl c now)) c')
              <= Z.to_nat (RateLimiter.max_requests (fst (RateLimiter.is_allowed rl c now))))%nat.
Proof.
  intros Hb c'. destruct (is_allowed_state rl c now) as (l & Hst & Hcase).
  rewrite Hst. rewrite set_stamps_max.
  destruct (String.eq_dec c' c) as [->|Hne].
  - rewrite stamps_set_stamps.
    destruct Hcase as [(-> & _ & _)|(-> & Hlt & _)].
    + eapply Nat.le_trans; [|exact (Hb c)].
      apply List.filter_length_le.
    + rewrite length_app. simpl. lia.
  - rewrite stamps_set_stamps_ne by exact Hne. apply Hb.
Qed.

Lemma stamps_one_client (k : string) (l : list Z) (c' : string) :
  (length (RateLimiter.stamps (RateLimiter.set_stamps RateLimiter.rate_limiter k l) c')
   <= length l)%nat.
Proof.
  destruct (String.eq_dec c' k) as [->|Hne].
  - rewrite stamps_set_stamps. lia.
  - rewrite stamps_set_stamps_ne by exact Hne. unfold RateLimiter.stamps. simpl.
    rewrite lookup_empty. simpl. lia.
Qed.

Lemma is_allowed_stamps_bounded_witness :
  let rl9 := RateLimiter.set_stamps RateLimiter.rate_limiter "10.0.0.1" nine_stamps in
  let rl10 := RateLimiter.set_stamps RateLimiter.rate_limiter "10.0.0.1" ten_stamps in
  ((forall c', (length (RateLimiter.stamps rl9 c')
                <= Z.to_nat (RateLimiter.max_requests rl9))%nat)
   /\ (forall c', (length (RateLimiter.stamps (fst (RateLimiter.is_allowed rl9 "10.0.0.1" 10%Z)) c')
                  <= Z.to_nat (RateLimiter.max_requests
                       (fst (RateLimiter.is_allowed rl9 "10.0.0.1" 10%Z))))%nat)
   /\ snd (RateLimiter.is_allowed rl9 "10.0.0.1" 10%Z) = Ok (true, RateLimiter.RateOK)
   /\ length (RateLimiter.stamps (fst (RateLimiter.is_allowed rl9 "10.0.0.1" 10%Z)) "10.0.0.1")
      = 10%nat)
  /\ ((forall c', (length (RateLimiter.stamps rl10 c')
                   <= Z.to_nat (RateLimiter.max_requests rl10))%nat)
      /\ (forall c', (length (RateLimiter.stamps (fst (RateLimiter.is_allowed rl10 "10.0.0.1" 10%Z)) c')
                     <= Z.to_nat (RateLimiter.max_requests
                          (fst (RateLimiter.is_allowed rl10 "10.0.0.1" 10%Z))))%nat)
      /\ snd (RateLimiter.is_allowed rl10 "10.0.0.1" 10%Z)
         = Ok (false, RateLimiter.RateExceeded 59%Z)).
Proof.
  intros rl9 rl10.
  assert (H9 : forall c', (length (RateLimiter.stamps rl9 c')
                           <= Z.to_nat (RateLimiter.max_requests rl9))%nat).
  { intros c'. pose proof (stamps_one_client "10.0.0.1" nine_stamps c') as H.
    change (Z.to_nat (RateLimiter.max_requests rl9)) with 10%nat.
    change (length nine_stamps) with 9%nat in H. unfold rl9. lia. }
  assert (H10 : forall c', (length (RateLimiter.stamps rl10 c')
                            <= Z.to_nat (RateLimiter.max_requests rl10))%nat).
  { intros c'. pose proof (stamps_one_client "10.0.0.1" ten_stamps c') as H.
    change (Z.to_nat (RateLimiter.max_requests rl10)) with 10%nat.
    change (length ten_stamps) with 10%nat in H. unfold rl10. lia. }
  split.
  - split; [exact H9|]. split; [exact (is_allowed_stamps_bounded rl9 "10.0.0.1" 10%Z H9)|].
    split; vm_compute; reflexivity.
  - split; [exact H10|]. split; [exact (is_allowed_stamps_bounded rl10 "10.0.0.1" 10%Z H10)|].
    vm_compute; reflexivity.
Defined.

(** X4: once every instant stored for a client is at least [window] old, a
    check (with [max_requests > 0]) is admitted and leaves only [now]
    stored for that client. *)
Theorem is_allowed_after_window (rl : RateLimiter.t) (c : string) (now : Z) :
  (0 < RateLimiter.max_requests rl)%Z ->
  Forall (fun t => (RateLimiter.window rl <= now - t)%Z) (RateLimiter.stamps rl c) ->
  RateLimiter.is_allowed rl c now
  = (RateLimiter.set_stamps rl c [now], Ok (true, RateLimiter.RateOK)).
Proof.
  intros Hmax Hold. unfold RateLimiter.is_allowed.
  rewrite (filter_expired _ _ _ Hold). simpl.
  destruct (RateLimiter.max_requests rl <=? Z.of_nat 0)%Z eqn:E; [apply Z.leb_le in E; lia|].
  reflexivity.
Qed.

Lemma is_allowed_after_window_witness :
  (0 < RateLimiter.max_requests (RateLimiter.set_stamps RateLimiter.rate_limiter "10.0.0.1" [0%Z; 5%Z]))%Z
  /\ Forall (fun t => (RateLimiter.window
               (RateLimiter.set_stamps RateLimiter.rate_limiter "10.0.0.1" [0%Z; 5%Z])
               <= 60000005 - t)%Z)
       (RateLimiter.stamps (RateLimiter.set_stamps RateLimiter.rate_limiter "10.0.0.1" [0%Z; 5%Z]) "10.0.0.1")
  /\ RateLimiter.is_allowed (RateLimiter.set_stamps RateLimiter.rate_limiter "10.0.0.1" [0%Z; 5%Z])
       "10.0.0.1" 60000005%Z
     = (RateLimiter.set_stamps (RateLimiter.set_stamps RateLimiter.rate_limiter "10.0.0.1" [0%Z; 5%Z])
          "10.0.0.1" [60000005%Z], Ok (true, RateLimiter.RateOK)).
Proof.
  assert (H1 : (0 < RateLimiter.max_requests
                  (RateLimiter.set_stamps RateLimiter.rate_limiter "10.0.0.1" [0%Z; 5%Z]))%Z)
    by (vm_compute; reflexivity).
  assert (H2 : Forall (fun t => (RateLimiter.window
               (RateLimiter.set_stamps RateLimiter.rate_limiter "10.0.0.1" [0%Z; 5%Z])
               <= 60000005 - t)%Z)
       (RateLimiter.stamps (RateLimiter.set_stamps RateLimiter.rate_limiter "10.0.0.1" [0%Z; 5%Z]) "10.0.0.1")).
  { change (RateLimiter.window (RateLimiter.set_stamps RateLimiter.rate_limiter "10.0.0.1" [0%Z; 5%Z]))
      with 60000000%Z.
    rewrite stamps_set_stamps.
    repeat apply List.Forall_cons; try apply List.Forall_nil; lia. }
  split; [exact H1|]. split; [exact H2|].
  exact (is_allowed_after_window _ "10.0.0.1" 60000005%Z H1 H2).
Defined.

(** X5: a client whose checks come at non-decreasing instants, starting
    with nothing stored, is admitted at most [max_requests] times in any
    interval [[a, a + window)]. *)
Theorem rate_limiter_sliding_window (rl : RateLimiter.t) (c : string) (ts : list Z) (a : Z) :
  RateLimiter.stamps rl c = [] -> nondecreasing ts = true ->
  (length (in_interval a (RateLimiter.window rl) (admitted rl c ts))
   <= Z.to_nat (RateLimiter.max_requests rl))%nat.
Proof.
  intros Hst Hnd. destruct ts as [|t0 ts'].
  - unfold admitted. simpl. lia.
  - pose proof (nondecreasing_cons t0 ts' Hnd) as [_ Hf].
    pose proof (admitted_window_gen c (t0 :: ts') rl [] t0) as H.
    simpl app in H. apply H; clear H.
    + intros now _. rewrite Hst. reflexivity.
    + constructor.
    + intros a'. simpl. lia.
    + constructor; [lia|exact Hf].
    + exact Hnd.
Qed.

Lemma rate_limiter_sliding_window_witness :
  RateLimiter.stamps RateLimiter.rate_limiter "10.0.0.1" = []
  /\ nondecreasing eleven_checks = true
  /\ (length (in_interval 0 (RateLimiter.window RateLimiter.rate_limiter)
                (admitted RateLimiter.rate_limiter "10.0.0.1" eleven_checks))
      <= Z.to_nat (RateLimiter.max_requests RateLimiter.rate_limiter))%nat.
Proof.
  assert (H1 : RateLimiter.stamps RateLimiter.rate_limiter "10.0.0.1" = [])
    by reflexivity.
  assert (H2 : nondecreasing eleven_checks = true) by (vm_compute; reflexivity).
  split; [exact H1|]. split; [exact H2|].
  exact (rate_limiter_sliding_window RateLimiter.rate_limiter "10.0.0.1" eleven_checks 0 H1 H2).
Defined.

(** X6: on a 200 response, [rate_limit_remaining] lies in
    [[0, max_requests)]. *)
Theorem ask_compliance_remaining (svc : services) (eng : engine) (rl rl' : RateLimiter.t)
    (req : request) (now : Z) (timestamp : string) (tr tr' : list event)
    (ans : answer) (rem : Z) :
  ask_compliance svc eng rl req now timestamp tr = (rl', tr', Resp200 ans rem) ->
  (0 <= rem < RateLimiter.max_requests rl)%Z.
Proof.
  intros H. destruct (is_allowed_state rl (client_of req) now) as (l & Hst & Hcase).
  unfold ask_compliance in H.
  destruct (RateLimiter.is_allowed rl (client_of req) now) as [rl1 r] eqn:E.
  simpl in Hst, Hcase. subst rl1.
  destruct Hcase as [(-> & _ & r' & <- & Hne)|(-> & Hlt & ->)].
  - destruct r as [[[] m]|ex]; [destruct (Hne m eq_refl)| |]; cbv zeta in H; discriminate H.
  - cbv zeta in H. destruct (req_body req) as [|q|]; try discriminate H.
    destruct (validate_question (default (PyStr "") q)) as [[[] sq] err]; simpl in H;
      try discriminate H.
    destruct (search_documents svc eng sq tr) as [tr1 [docs|ex]]; try discriminate H.
    destruct (generate_answer svc timestamp sq docs (client_of req) tr1) as [tr2 [res|ex]];
      try discriminate H.
    inversion H; subst. rewrite stamps_set_stamps, length_app. simpl. lia.
Qed.

Lemma ask_compliance_remaining_witness :
  exists rl' tr' ans rem,
    ask_compliance (svc_ok policy_hits) rag_engine RateLimiter.rate_limiter
      (ask "O que diz a politica de senhas?") 0 "2026-01-01T00:00:00" []
    = (rl', tr', Resp200 ans rem)
    /\ (0 <= rem < RateLimiter.max_requests RateLimiter.rate_limiter)%Z.
Proof.
  do 4 eexists. split.
  - reflexivity.
  - eapply (ask_compliance_remaining (svc_ok policy_hits) rag_engine
              RateLimiter.rate_limiter _ (ask "O que diz a politica de senhas?") 0
              "2026-01-01T00:00:00" []).
    reflexivity.
Defined.

(** X7: an admitted request whose body lacks the ["question"] key, or
    holds a falsy value there, is answered 400 with the empty-question
    message, without any call to the clients. *)
Theorem ask_compliance_empty_question (svc : services) (eng : engine) (rl rl1 : RateLimiter.t)
    (req : request) (now : Z) (timestamp : string) (tr : list event)
    (m : RateLimiter.rate_msg) (q : option pyval) :
  RateLimiter.is_allowed rl (client_of req) now = (rl1, Ok (true, m)) ->
  req_body req = BodyObject q ->
  py_falsy (default (PyStr "") q) = true ->
  ask_compliance svc eng rl req now timestamp tr = (rl1, tr, Resp400 msg_empty).
Proof.
  intros Hal Hb Hf. unfold ask_compliance. rewrite Hal, Hb. cbv zeta.
  unfold validate_question. rewrite Hf. reflexivity.
Qed.

Lemma ask_compliance_empty_question_witness :
  exists rl1 m,
    RateLimiter.is_allowed RateLimiter.rate_limiter (client_of ask_no_question) 0
      = (rl1, Ok (true, m))
    /\ req_body ask_no_question = BodyObject None
    /\ py_falsy (default (PyStr "") None) = true
    /\ ask_compliance (svc_ok policy_hits) rag_engine RateLimiter.rate_limiter
         ask_no_question 0 "2026-01-01T00:00:00" [] = (rl1, [], Resp400 msg_empty).
Proof.
  do 2 eexists.
  assert (H1 : RateLimiter.is_allowed RateLimiter.rate_limiter (client_of ask_no_question) 0
               = (RateLimiter.set_stamps RateLimiter.rate_limiter "10.0.0.1" [0%Z],
                  Ok (true, RateLimiter.RateOK))) by reflexivity.
  split; [exact H1|]. split; [reflexivity|]. split; [reflexivity|].
  exact (ask_compliance_empty_question (svc_ok policy_hits) rag_engine RateLimiter.rate_limiter
           _ ask_no_question 0 "2026-01-01T00:00:00" [] _ None H1 eq_refl eq_refl).
Defined.






(** ** Validator: blank and accepted questions *)

Lemma lstrip_all_space (q : string) :
  str_forall PyStr.is_space q = true -> PyStr.lstrip q = EmptyString.
Proof.
  induction q as [|c r IH]; [reflexivity|]. simpl.
  intros H. apply andb_true_iff in H as [Hc Hr]. rewrite Hc. exact (IH Hr).
Qed.

Lemma lstrip_split (q : string) :
  exists a, q = (a ++ PyStr.lstrip q)%string /\ str_forall PyStr.is_space a = true.
Proof.
  induction q as [|c r IH]; [exists EmptyString; split; reflexivity|].
  cbn [PyStr.lstrip]. destruct (PyStr.is_space c) eqn:Ec.
  - destruct IH as (a & Ha & Hs). exists (String c a). split.
    + simpl. rewrite <- Ha. reflexivity.
    + simpl. rewrite Ec, Hs. reflexivity.
  - exists EmptyString. split; reflexivity.
Qed.

Lemma rstrip_split (s : string) :
  exists b, s = (PyStr.rstrip s ++ b)%string /\ str_forall PyStr.is_space b = true.
Proof.
  induction s as [|c r IH]; [exists EmptyString; split; reflexivity|].
  destruct IH as (b & Hb & Hs). cbn [PyStr.rstrip].
  destruct (PyStr.rstrip r) as [|c' r'] eqn:E.
  - simpl in Hb. subst b. destruct (PyStr.is_space c) eqn:Ec.
    + exists (String c r). split; [reflexivity|]. simpl. rewrite Ec, Hs. reflexivity.
    + exists r. split; [reflexivity|exact Hs].
  - exists b. split; [|exact Hs]. simpl. rewrite Hb at 1. reflexivity.
Qed.

(** X10: a non-empty question made only of whitespace is refused as too
    short, with an empty sanitized text. *)
Theorem validate_question_blank (q : string) :
  q <> EmptyString -> str_forall PyStr.is_space q = true ->
  validate_question (PyStr q) = (false, EmptyString, msg_too_short).
Proof.
  intros Hne Hsp. unfold validate_question, py_falsy.
  destruct (String.eqb q "") eqn:E; [apply String.eqb_eq in E; contradiction|].
  unfold PyStr.strip. rewrite (lstrip_all_space q Hsp). reflexivity.
Qed.

Lemma validate_question_blank_witness :
  (String " " (String (ascii_of_nat 9) (String " " EmptyString))) <> EmptyString
  /\ str_forall PyStr.is_space (String " " (String (ascii_of_nat 9) (String " " EmptyString))) = true
  /\ validate_question (PyStr (String " " (String (ascii_of_nat 9) (String " " EmptyString))))
     = (false, EmptyString, msg_too_short).
Proof.
  assert (H1 : (String " " (String (ascii_of_nat 9) (String " " EmptyString))) <> EmptyString)
    by discriminate.
  assert (H2 : str_forall PyStr.is_space
                 (String " " (String (ascii_of_nat 9) (String " " EmptyString))) = true)
    by reflexivity.
  split; [exact H1|]. split; [exact H2|].
  exact (validate_question_blank _ H1 H2).
Defined.

(** X11: an accepted question is a string whose sanitized text is the
    input with only leading and trailing whitespace removed; that text is
    its own [strip()], has 5 to 1000 characters, at least 3 of them
    alphanumeric, and the error message is empty. *)
Theorem validate_question_accepts_trimmed (v : pyval) (s err : string) :
  validate_question v = (true, s, err) ->
  err = EmptyString /\ PyStr.strip s = s
  /\ (5 <= String.length s <= 1000)%nat /\ (3 <= PyStr.alnum_count s)%nat
  /\ exists q a b, v = PyStr q /\ q = (a ++ s ++ b)%string
       /\ str_forall PyStr.is_space a = true /\ str_forall PyStr.is_space b = true.
Proof.
  unfold validate_question. destruct (py_falsy v); [discriminate|].
  destruct v as [q| |t]; [|discriminate|discriminate].
  destruct (String.length (PyStr.strip q) <? 5)%nat eqn:E1; [discriminate|].
  destruct (1000 <? String.length (PyStr.strip q))%nat eqn:E2; [discriminate|].
  destruct (PyStr.alnum_count (PyStr.strip q) <? 3)%nat eqn:E3; [discriminate|].
  destruct (existsb _ suspicious_patterns); [discriminate|].
  intros H. inversion H; subst s err. clear H.
  apply Nat.ltb_ge in E1, E2, E3.
  split; [reflexivity|]. split; [apply strip_idem|]. split; [lia|]. split; [exact E3|].
  destruct (lstrip_split q) as (a & Ha & Hsa).
  destruct (rstrip_split (PyStr.lstrip q)) as (b & Hb & Hsb).
  exists q, a, b. split; [reflexivity|]. split; [|split; assumption].
  unfold PyStr.strip. rewrite Ha at 1. rewrite Hb at 1. reflexivity.
Qed.

Lemma validate_question_accepts_trimmed_witness :
  validate_question (PyStr "  Qual a politica de senhas?  ")
    = (true, "Qual a politica de senhas?", EmptyString)
  /\ EmptyString = EmptyString /\ PyStr.strip "Qual a politica de senhas?" = "Qual a politica de senhas?"
  /\ (5 <= String.length "Qual a politica de senhas?" <= 1000)%nat
  /\ (3 <= PyStr.alnum_count "Qual a politica de senhas?")%nat
  /\ exists q a b, PyStr "  Qual a politica de senhas?  " = PyStr q
       /\ q = (a ++ "Qual a politica de senhas?" ++ b)%string
       /\ str_forall PyStr.is_space a = true /\ str_forall PyStr.is_space b = true.
Proof.
  assert (H : validate_question (PyStr "  Qual a politica de senhas?  ")
              = (true, "Qual a politica de senhas?", EmptyString)) by (vm_compute; reflexivity).
  split; [exact H|].
  exact (validate_question_accepts_trimmed _ _ _ H).
Defined.

(** ** Answers: sources and prompt *)

Lemma dedup_nodup (l : list string) : List.NoDup (dedup l).
Proof.
  induction l as [|y r IH]; cbn [dedup]; [constructor|]. constructor.
  - intros Hin. apply List.filter_In in Hin as [_ H].
    rewrite String.eqb_refl in H. discriminate.
  - apply List.NoDup_filter. exact IH.
Qed.

Lemma dedup_length (l : list string) : (length (dedup l) <= length l)%nat.
Proof.
  induction l as [|y r IH]; cbn [dedup length]; [lia|].
  pose proof (List.filter_length_le (fun z => negb (String.eqb y z)) (dedup r)). lia.
Qed.

Lemma dedup_nil (l : list string) : dedup l = [] <-> l = [].
Proof. destruct l; cbn [dedup]; split; congruence. Qed.

(** X12: the [sources] of any answer [generate_answer] returns hold no
    duplicate, are no more than the documents it was given, and are empty
    exactly when that document list is empty. *)
Theorem generate_answer_sources (svc : services) (timestamp question client_ip : string)
    (docs : list doc) (tr tr' : list event) (ans : answer) :
  generate_answer svc timestamp question docs client_ip tr = (tr', Ok ans) ->
  List.NoDup (ans_sources ans)
  /\ (length (ans_sources ans) <= length docs)%nat
  /\ (ans_sources ans = [] <-> docs = []).
Proof.
  intros H.
  assert (Hc : docs = [] \/ docs <> []) by (destruct docs; [left|right]; congruence).
  destruct Hc as [->|Hne].
  - simpl in H. inversion H; subst. simpl. split; [constructor|]. split; [lia|tauto].
  - rewrite (generate_answer_evidence svc timestamp question client_ip docs tr Hne) in H.
    cbv zeta in H. destruct (llm_invoke svc _); [|discriminate H].
    injection H as _ Hans. subst ans. cbn [ans_sources].
    split; [apply dedup_nodup|]. split.
    + rewrite <- (length_map source_label docs). apply dedup_length.
    + rewrite dedup_nil. split; [|intros ->; reflexivity].
      intros Hm. apply map_eq_nil in Hm. contradiction.
Qed.

Lemma generate_answer_sources_witness :
  exists tr' ans,
    generate_answer (svc_ok policy_hits) "2026-01-01T00:00:00"
      "O que diz a politica de senhas?" policy_docs "10.0.0.1" [] = (tr', Ok ans)
    /\ List.NoDup (ans_sources ans)
    /\ (length (ans_sources ans) <= length policy_docs)%nat
    /\ (ans_sources ans = [] <-> policy_docs = []).
Proof.
  set (g := generate_answer (svc_ok policy_hits) "2026-01-01T00:00:00"
              "O que diz a politica de senhas?" policy_docs "10.0.0.1" []).
  exists (fst g), (match snd g with Ok a => a | Err _ => insufficient_answer end).
  assert (Hg : g = (fst g, Ok (match snd g with Ok a => a | Err _ => insufficient_answer end)))
    by (vm_compute; reflexivity).
  split; [exact Hg|].
  exact (generate_answer_sources (svc_ok policy_hits) "2026-01-01T00:00:00"
           "O que diz a politica de senhas?" "10.0.0.1" policy_docs [] _ _ Hg).
Defined.

Lemma concat_in (sep x : string) (l : list string) :
  In x l -> exists a b, String.concat sep l = (a ++ x ++ b)%string.
Proof.
  induction l as [|y r IH]; [intros []|]. intros [->|Hin].
  - destruct r as [|z r].
    + exists EmptyString, EmptyString. simpl. rewrite str_app_nil_r. reflexivity.
    + exists EmptyString, (sep ++ String.concat sep (z :: r))%string. reflexivity.
  - destruct r as [|z r]; [destruct Hin|].
    destruct (IH Hin) as (a & b & E).
    exists (y ++ sep ++ a)%string, b.
    change (String.concat sep (y :: z :: r)) with (y ++ sep ++ String.concat sep (z :: r))%string.
    rewrite E, !str_app_assoc. reflexivity.
Qed.

Lemma contains_within (m s a b : string) :
  PyStr.contains m s = true -> PyStr.contains m (a ++ s ++ b)%string = true.
Proof.
  intros H. destruct (contains_inv _ _ H) as (a' & b' & ->).
  replace (a ++ (a' ++ m ++ b') ++ b)%string with ((a ++ a') ++ m ++ (b' ++ b))%string
    by (rewrite !str_app_assoc; reflexivity).
  apply contains_app.
Qed.

Lemma contains_app_l (m a s : string) :
  PyStr.contains m s = true -> PyStr.contains m (a ++ s)%string = true.
Proof.
  intros H. pose proof (contains_within m s a EmptyString H) as H'.
  rewrite str_app_nil_r in H'. exact H'.
Qed.

Lemma prompt_contents (docs : list doc) (question : string) :
  PyStr.contains question (system_prompt (context_of docs) question) = true
  /\ Forall (fun d => PyStr.contains (source d) (system_prompt (context_of docs) question) = true
                      /\ PyStr.contains (content d) (system_prompt (context_of docs) question) = true)
            docs.
Proof.
  unfold system_prompt. split.
  - edestruct (concat_in nl ("PERGUNTA: " ++ question)%string) as (a & b & ->);
      [simpl; tauto|].
    rewrite str_app_assoc. apply contains_app_l. apply contains_app_l.
    exact (contains_app question EmptyString b).
  - edestruct (concat_in nl (context_of docs)) as (a & b & ->); [simpl; tauto|].
    apply List.Forall_forall. intros d Hd.
    unfold context_of.
    edestruct (concat_in (nl ++ nl ++ "---" ++ nl ++ nl)%string
                 ("Documento: " ++ source d ++ " (Página " ++ pretty (page d) ++ ")"
                  ++ nl ++ content d)%string) as (a' & b' & ->).
    { apply in_map_iff. exists d. split; [reflexivity|exact Hd]. }
    split; apply contains_within; apply contains_within.
    + apply contains_app_l. exact (contains_app (source d) EmptyString _).
    + repeat apply contains_app_l.
      pose proof (contains_app (content d) EmptyString EmptyString) as H.
      rewrite str_app_nil_r in H. exact H.
Qed.

(** X13: when [generate_answer] calls the LLM (any non-empty document
    list), the prompt it sends contains the question and, for every
    document, its source file name and its content; the call is the next
    event of the trace. *)
Theorem generate_answer_prompt (svc : services) (timestamp question client_ip : string)
    (docs : list doc) (tr tr' : list event) (r : result answer) :
  docs <> [] ->
  generate_answer svc timestamp question docs client_ip tr = (tr', r) ->
  exists prompt rest, tr' = tr ++ EvLLM prompt :: rest
    /\ PyStr.contains question prompt = true
    /\ Forall (fun d => PyStr.contains (source d) prompt = true
                        /\ PyStr.contains (content d) prompt = true) docs.
Proof.
  intros Hne H.
  rewrite (generate_answer_evidence svc timestamp question client_ip docs tr Hne) in H.
  cbv zeta in H. exists (system_prompt (context_of docs) question).
  destruct (llm_invoke svc _); inversion H; subst; eexists;
    (split; [first [reflexivity | rewrite <- app_assoc; reflexivity]|apply prompt_contents]).
Qed.

Lemma generate_answer_prompt_witness :
  policy_docs <> []
  /\ exists tr' r,
    generate_answer (svc_llm_down policy_hits) "2026-01-01T00:00:00"
      "O que diz a politica de senhas?" policy_docs "10.0.0.1" [] = (tr', r)
    /\ exists prompt rest, tr' = [] ++ EvLLM prompt :: rest
       /\ PyStr.contains "O que diz a politica de senhas?" prompt = true
       /\ Forall (fun d => PyStr.contains (source d) prompt = true
                           /\ PyStr.contains (content d) prompt = true) policy_docs.
Proof.
  assert (Hne : policy_docs <> []) by (vm_compute; discriminate).
  split; [exact Hne|].
  set (g := generate_answer (svc_llm_down policy_hits) "2026-01-01T00:00:00"
              "O que diz a politica de senhas?" policy_docs "10.0.0.1" []).
  exists (fst g), (snd g).
  assert (Hg : g = (fst g, snd g)) by (vm_compute; reflexivity).
  split; [exact Hg|].
  exact (generate_answer_prompt (svc_llm_down policy_hits) "2026-01-01T00:00:00"
           "O que diz a politica de senhas?" "10.0.0.1" policy_docs [] _ _ Hne Hg).
Defined.

(** X14: with a positive [min_relevance_score], a search hit that has no
    score is never kept: the documents are those of the hits that have a
    score. *)
Theorem filter_relevant_unscored (eng : engine) (results : list search_hit) :
  (0 <? min_relevance_score eng)%float = true ->
  filter_relevant eng results
  = filter_relevant eng (List.filter (fun r => match hit_score r with
                                               | Some _ => true | None => false end) results).
Proof.
  intros Hpos. pose proof (float_ltb_leb_false _ _ Hpos) as H0.
  induction results as [|r rs IH]; [reflexivity|].
  simpl. destruct (hit_score r) as [sc|] eqn:E; simpl.
  - rewrite E. simpl. rewrite IH. reflexivity.
  - rewrite H0. exact IH.
Qed.

Lemma filter_relevant_unscored_witness :
  (0 <? min_relevance_score rag_engine)%float = true
  /\ filter_relevant rag_engine
       (policy_hits ++ [{| hit_score := None; hit_content := Some "Trecho sem nota";
                           hit_source_file := Some "rascunho.pdf"; hit_page_number := Some 2%Z;
                           hit_compliance_level := None |}])
     = filter_relevant rag_engine
         (List.filter (fun r => match hit_score r with Some _ => true | None => false end)
            (policy_hits ++ [{| hit_score := None; hit_content := Some "Trecho sem nota";
                                hit_source_file := Some "rascunho.pdf"; hit_page_number := Some 2%Z;
                                hit_compliance_level := None |}])).
Proof.
  assert (H : (0 <? min_relevance_score rag_engine)%float = true) by (vm_compute; reflexivity).
  split; [exact H|]. exact (filter_relevant_unscored rag_engine _ H).
Defined.

(** X15: when [generate_answer] succeeds on a non-empty document list, the
    trace gains exactly the LLM call and one audit entry; that entry
    carries the request's timestamp and client IP and the question's hash,
    lists the source file of every document, and its confidence is the
    float from which the answer's [confidence] label is computed, and the
    answer's [documents_used] is the number of listed sources. *)
Theorem generate_answer_audit_matches (svc : services) (timestamp question client_ip : string)
    (docs : list doc) (tr tr' : list event) (ans : answer) :
  docs <> [] ->
  generate_answer svc timestamp question docs client_ip tr = (tr', Ok ans) ->
  exists prompt e, tr' = tr ++ [EvLLM prompt; EvAudit e]
    /\ audit_timestamp e = timestamp /\ audit_client_ip e = client_ip
    /\ audit_question_hash e = question_hash question
    /\ audit_sources e = map source docs
    /\ ans_confidence ans = confidence_level (audit_confidence e)
    /\ ans_documents_used ans = Some (length (audit_sources e))
    /\ ans_warning ans = None.
Proof.
  intros Hne H.
  rewrite (generate_answer_evidence svc timestamp question client_ip docs tr Hne) in H.
  cbv zeta in H. destruct (llm_invoke svc _); inversion H; subst.
  do 2 eexists. split; [rewrite <- app_assoc; reflexivity|].
  unfold audit_of. simpl. rewrite length_map. repeat split.
Qed.

Lemma generate_answer_audit_matches_witness :
  policy_docs <> []
  /\ exists tr' ans,
    generate_answer (svc_ok policy_hits) "2026-01-01T00:00:00"
      "O que diz a politica de senhas?" policy_docs "10.0.0.1" [] = (tr', Ok ans)
    /\ exists prompt e, tr' = [] ++ [EvLLM prompt; EvAudit e]
      /\ audit_timestamp e = "2026-01-01T00:00:00" /\ audit_client_ip e = "10.0.0.1"
      /\ audit_question_hash e = question_hash "O que diz a politica de senhas?"
      /\ audit_sources e = map source policy_docs
      /\ ans_confidence ans = confidence_level (audit_confidence e)
      /\ ans_documents_used ans = Some (length (audit_sources e))
      /\ ans_warning ans = None.
Proof.
  assert (Hne : policy_docs <> []) by (vm_compute; discriminate).
  split; [exact Hne|].
  set (g := generate_answer (svc_ok policy_hits) "2026-01-01T00:00:00"
              "O que diz a politica de senhas?" policy_docs "10.0.0.1" []).
  exists (fst g), (match snd g with Ok a => a | Err _ => insufficient_answer end).
  assert (Hg : g = (fst g, Ok (match snd g with Ok a => a | Err _ => insufficient_answer end)))
    by (vm_compute; reflexivity).
  split; [exact Hg|].
  exact (generate_answer_audit_matches (svc_ok policy_hits) "2026-01-01T00:00:00"
           "O que diz a politica de senhas?" "10.0.0.1" policy_docs [] _ _ Hne Hg).
Defined.

(** X16: when no stored instant of the client lies after [now], a refused
    check reports a retry delay between 0 and the window length in whole
    seconds, and stores only the client's unexpired instants ([now] is not
    recorded). *)
Theorem is_allowed_refusal (rl rl' : RateLimiter.t) (c : string) (now s : Z) :
  Forall (fun t => (t <= now)%Z) (RateLimiter.stamps rl c) ->
  RateLimiter.is_allowed rl c now = (rl', Ok (false, RateLimiter.RateExceeded s)) ->
  (0 <= s <= Z.quot (RateLimiter.window rl) RateLimiter.us_per_second)%Z
  /\ RateLimiter.stamps rl' c
     = List.filter (fun t => (now - t <? RateLimiter.window rl)%Z) (RateLimiter.stamps rl c).
Proof.
  intros Hpast H.
  destruct (is_allowed_denial rl rl' c now s H) as (oldest & Hm & Hs & Hpos & Hnn).
  destruct (is_allowed_state rl c now) as (l & Hst & Hcase).
  rewrite H in Hst, Hcase. simpl in Hst, Hcase. subst rl'.
  split.
  - split; [exact Hnn|]. subst s.
    destruct (py_min_spec _ _ Hm) as [Hin _].
    apply List.filter_In in Hin as [Hin _].
    rewrite List.Forall_forall in Hpast. specialize (Hpast _ Hin).
    unfold RateLimiter.retry_after_secs, RateLimiter.us_per_second.
    rewrite !Z.quot_div_nonneg by lia.
    apply Z.div_le_mono; lia.
  - destruct Hcase as [(-> & _)|(_ & _ & Habs)]; [apply stamps_set_stamps|discriminate Habs].
Qed.

Lemma is_allowed_refusal_witness :
  exists rl' s,
    Forall (fun t => (t <= 1000000)%Z)
      (RateLimiter.stamps (RateLimiter.set_stamps RateLimiter.rate_limiter "10.0.0.1"
                             [0; 1; 2; 3; 4; 5; 6; 7; 8; 9]%Z) "10.0.0.1")
    /\ RateLimiter.is_allowed
         (RateLimiter.set_stamps RateLimiter.rate_limiter "10.0.0.1" [0; 1; 2; 3; 4; 5; 6; 7; 8; 9]%Z)
         "10.0.0.1" 1000000%Z = (rl', Ok (false, RateLimiter.RateExceeded s))
    /\ (0 <= s <= Z.quot (RateLimiter.window
          (RateLimiter.set_stamps RateLimiter.rate_limiter "10.0.0.1" [0; 1; 2; 3; 4; 5; 6; 7; 8; 9]%Z))
          RateLimiter.us_per_second)%Z
    /\ RateLimiter.stamps rl' "10.0.0.1"
       = List.filter (fun t => (1000000 - t <? RateLimiter.window
            (RateLimiter.set_stamps RateLimiter.rate_limiter "10.0.0.1"
               [0; 1; 2; 3; 4; 5; 6; 7; 8; 9]%Z))%Z)
           (RateLimiter.stamps (RateLimiter.set_stamps RateLimiter.rate_limiter "10.0.0.1"
                                  [0; 1; 2; 3; 4; 5; 6; 7; 8; 9]%Z) "10.0.0.1").
Proof.
  set (rl := RateLimiter.set_stamps RateLimiter.rate_limiter "10.0.0.1"
               [0; 1; 2; 3; 4; 5; 6; 7; 8; 9]%Z).
  exists (RateLimiter.set_stamps rl "10.0.0.1" [0; 1; 2; 3; 4; 5; 6; 7; 8; 9]%Z), 59%Z.
  assert (H1 : Forall (fun t => (t <= 1000000)%Z) (RateLimiter.stamps rl "10.0.0.1")).
  { unfold rl. rewrite stamps_set_stamps.
    repeat apply List.Forall_cons; try apply List.Forall_nil; lia. }
  assert (H2 : RateLimiter.is_allowed rl "10.0.0.1" 1000000%Z
               = (RateLimiter.set_stamps rl "10.0.0.1" [0; 1; 2; 3; 4; 5; 6; 7; 8; 9]%Z,
                  Ok (false, RateLimiter.RateExceeded 59%Z))) by (vm_compute; reflexivity).
  split; [exact H1|]. split; [exact H2|].
  exact (is_allowed_refusal rl _ "10.0.0.1" 1000000%Z 59%Z H1 H2).
Defined.

(** X17: whatever the response, the endpoint leaves the limiter exactly in
    the state of one [is_allowed] check for the request's client: the
    limiter is consulted once, and an admitted request counts even when it
    is then refused as invalid or fails. *)
Theorem ask_compliance_limiter_state (svc : services) (eng : engine) (rl rl' : RateLimiter.t)
    (req : request) (now : Z) (timestamp : string) (tr tr' : list event) (resp : response) :
  ask_compliance svc eng rl req now timestamp tr = (rl', tr', resp) ->
  rl' = fst (RateLimiter.is_allowed rl (client_of req) now).
Proof.
  unfold ask_compliance.
  destruct (RateLimiter.is_allowed rl (client_of req) now) as [rl1 [[[] m]|ex]];
    cbv zeta; simpl; try (intros H; inversion H; reflexivity).
  destruct (req_body req) as [|q|]; try (intros H; inversion H; reflexivity).
  destruct (validate_question (default (PyStr "") q)) as [[[] sq] err]; simpl;
    try (intros H; inversion H; reflexivity).
  destruct (search_documents svc eng sq tr) as [tr1 [docs|ex]];
    try (intros H; inversion H; reflexivity).
  destruct (generate_answer svc timestamp sq docs (client_of req) tr1) as [tr2 [res|ex]];
    intros H; inversion H; reflexivity.
Qed.

Lemma ask_compliance_limiter_state_witness :
  exists rl' tr' resp,
    ask_compliance (svc_ok policy_hits) rag_engine RateLimiter.rate_limiter
      (ask "oi?") 0 "2026-01-01T00:00:00" [] = (rl', tr', resp)
    /\ rl' = fst (RateLimiter.is_allowed RateLimiter.rate_limiter (client_of (ask "oi?")) 0).
Proof.
  do 3 eexists. split; [reflexivity|].
  eapply (ask_compliance_limiter_state (svc_ok policy_hits) rag_engine RateLimiter.rate_limiter
            _ (ask "oi?") 0 "2026-01-01T00:00:00" []).
  reflexivity.
Defined.

Lemma generate_answer_trace (svc : services) (timestamp question client_ip : string)
    (docs : list doc) (tr tr' : list event) (r : result answer) :
  generate_answer svc timestamp question docs client_ip tr = (tr', r) ->
  exists ext, tr' = tr ++ ext /\ (length (audits ext) <= 1)%nat
              /\ (audits ext <> [] -> exists ans, r = Ok ans).
Proof.
  intros H.
  assert (Hc : docs = [] \/ docs <> []) by (destruct docs; [left|right]; congruence).
  destruct Hc as [->|Hne].
  - simpl in H. inversion H; subst. exists []. rewrite app_nil_r.
    split; [reflexivity|]. split; [simpl; lia|]. intros []; reflexivity.
  - rewrite (generate_answer_evidence svc timestamp question client_ip docs tr Hne) in H.
    cbv zeta in H. destruct (llm_invoke svc _); inversion H; subst.
    + eexists. split; [rewrite <- app_assoc; reflexivity|].
      split; [simpl; lia|]. intros _. eauto.
    + eexists. split; [reflexivity|]. split; [simpl; lia|].
      intros Ha. simpl in Ha. congruence.
Qed.

(** X18: the endpoint only appends to the event log: the log after a
    request extends the log before it by at most one audit entry, and an
    audit entry is appended only when the response is 200. *)
Theorem ask_compliance_log_append (svc : services) (eng : engine) (rl rl' : RateLimiter.t)
    (req : request) (now : Z) (timestamp : string) (tr tr' : list event) (resp : response) :
  ask_compliance svc eng rl req now timestamp tr = (rl', tr', resp) ->
  exists ext, tr' = tr ++ ext /\ (length (audits ext) <= 1)%nat
              /\ (audits ext <> [] -> exists ans rem, resp = Resp200 ans rem).
Proof.
  assert (Hnil : forall r : response, exists ext, tr = tr ++ ext
            /\ (length (audits ext) <= 1)%nat
            /\ (audits ext <> [] -> exists ans rem, r = Resp200 ans rem)).
  { intros r. exists []. rewrite app_nil_r. split; [reflexivity|].
    split; [simpl; lia|]. intros []; reflexivity. }
  unfold ask_compliance.
  destruct (RateLimiter.is_allowed rl (client_of req) now) as [rl1 [[[] m]|ex]];
    cbv zeta; simpl; try (intros H; inversion H; subst; apply Hnil).
  destruct (req_body req) as [|q|]; try (intros H; inversion H; subst; apply Hnil).
  destruct (validate_question (default (PyStr "") q)) as [[[] sq] err]; simpl;
    try (intros H; inversion H; subst; apply Hnil).
  destruct (search_documents svc eng sq tr) as [tr1 [docs|ex]] eqn:Hs.
  - destruct (search_documents_trace _ _ _ _ _ _ Hs) as (c1 & -> & Ha1 & _).
    destruct (generate_answer svc timestamp sq docs (client_of req) (tr ++ c1))
      as [tr2 r] eqn:Hg.
    destruct (generate_answer_trace _ _ _ _ _ _ _ _ Hg) as (c2 & -> & Hlen & Hok).
    intros H. exists (c1 ++ c2).
    rewrite audits_app, Ha1. simpl.
    destruct r as [res|ex]; inversion H; subst.
    + split; [rewrite app_assoc; reflexivity|]. split; [exact Hlen|]. eauto.
    + split; [rewrite app_assoc; reflexivity|]. split; [exact Hlen|].
      intros Ha. destruct (Hok Ha) as [ans Hans]. discriminate Hans.
  - destruct (search_documents_trace _ _ _ _ _ _ Hs) as (c1 & -> & Ha1 & _).
    intros H. inversion H; subst. exists c1. split; [reflexivity|].
    rewrite Ha1. split; [simpl; lia|]. intros []; reflexivity.
Qed.

Lemma ask_compliance_log_append_witness :
  exists rl' tr' resp,
    ask_compliance (svc_ok policy_hits) rag_engine RateLimiter.rate_limiter
      (ask "O que diz a politica de senhas?") 0 "2026-01-01T00:00:00" [] = (rl', tr', resp)
    /\ exists ext, tr' = [] ++ ext /\ (length (audits ext) <= 1)%nat
       /\ (audits ext <> [] -> exists ans rem, resp = Resp200 ans rem).
Proof.
  do 3 eexists. split; [reflexivity|].
  eapply (ask_compliance_log_append (svc_ok policy_hits) rag_engine RateLimiter.rate_limiter
            _ (ask "O que diz a politica de senhas?") 0 "2026-01-01T00:00:00" []).
  reflexivity.
Defined.
